(** * EDAFlow: a chain-of-responsibility data-preparation pipeline

    Shallow embedding of [src/EDAFlow.py].  The program loads a CSV file into a
    pandas [DataFrame], removes duplicate rows, fills missing values column by
    column, and hands the table to a report generator.  The handlers share one
    mutable dict ([data]) and one mutable [DataFrame] object.

    Layout of the development:
    - [Sorting]   insertion sort;
    - [pd]        the pandas operations the source calls
                  ([drop_duplicates], [isnull], [mode], [median], [fillna]);
    - [os_path]   [os.path.join];
    - the handlers and [EDAFlow], written in a state-and-exception monad over
      the world (dict, object store, file system, log);
    - the properties: facts about sorting, binary64, the pandas operations
      and the imputation loop, then the stages and the pipeline. *)

From Stdlib Require Import ZArith Floats List Bool Lia Ascii String.
From Stdlib Require Import Sorting.Sorted Sorting.Permutation.
From Stdlib Require Import Structures.OrderedTypeEx.
From stdpp Require Import gmap strings list fin_maps.

Local Open Scope string_scope.

(** ** Insertion sort

    [np.sort] and the selection inside [median] are modelled by a stable
    insertion sort: only the sorted order of the result is used. *)

Module Sorting.

Fixpoint insert_sorted {A : Type} (leb : A -> A -> bool) (x : A) (l : list A) : list A :=
  match l with
  | [] => [x]
  | y :: l' => if leb x y then x :: l else y :: insert_sorted leb x l'
  end.

Definition sort {A : Type} (leb : A -> A -> bool) (l : list A) : list A :=
  fold_right (insert_sorted leb) [] l.

End Sorting.

(** ** The pandas operations used by the cleaning step

    [pandas] is an external library; the definitions follow its documented
    behaviour (pandas 1.x/2.x, where a chained in-place [fillna] writes through
    to the frame).  A frame is a list of named columns of equal length; the
    columns that [pd.read_csv] infers are modelled: [object] (text, a missing
    entry is [None]), [float64] (a missing entry is NaN) and [int64] (never
    missing; a [bool] column behaves as the integers 0 and 1).  Row labels are
    not modelled: no operation of the source reads them. *)

Module pd.

Inductive Series :=
| ObjectSeries (values : list (option string))
| Float64Series (values : list float)
| Int64Series (values : list Z).

Definition DataFrame := list (string * Series).

Inductive cell :=
| PyObject (o : option string)
| Float64 (x : float)
| Int64 (z : Z).

Definition cells (s : Series) : list cell :=
  match s with
  | ObjectSeries v => map PyObject v
  | Float64Series v => map Float64 v
  | Int64Series v => map Int64 v
  end.

Definition len (s : Series) : nat := length (cells s).

(** [len(df)] *)
Definition nrows (df : DataFrame) : nat :=
  match df with
  | [] => 0
  | (_, s) :: _ => len s
  end.

(** All columns have the frame's length (always true of a pandas frame). *)
Definition rectangular (df : DataFrame) : bool :=
  forallb (fun c => Nat.eqb (len (snd c)) (nrows df)) df.

(** [pd.isnull] on one value. *)
Definition isnull (c : cell) : bool :=
  match c with
  | PyObject None => true
  | PyObject (Some _) => false
  | Float64 x => is_nan x
  | Int64 _ => false
  end.

(** [s.isnull().any()] *)
Definition isnull_any (s : Series) : bool := existsb isnull (cells s).

(** [s.isnull().sum()] *)
Definition isnull_sum (s : Series) : nat := length (List.filter isnull (cells s)).

(** Equality of two values as [duplicated] sees it: missing values are
    equal to each other, and floats compare with [==]. *)
Definition cell_eqb (a b : cell) : bool :=
  match a, b with
  | PyObject None, PyObject None => true
  | PyObject (Some x), PyObject (Some y) => String.eqb x y
  | Float64 x, Float64 y => (x =? y)%float || (is_nan x && is_nan y)
  | Int64 x, Int64 y => Z.eqb x y
  | _, _ => false
  end.

Fixpoint row_eqb (r1 r2 : list cell) : bool :=
  match r1, r2 with
  | [], [] => true
  | a :: r1', b :: r2' => cell_eqb a b && row_eqb r1' r2'
  | _, _ => false
  end.

(** The rows of a frame, top to bottom; each row lists its cells in column
    order. *)
Fixpoint rows_of (n : nat) (df : DataFrame) : list (list cell) :=
  match df with
  | [] => repeat [] n
  | (_, s) :: rest => zip_with cons (cells s) (rows_of n rest)
  end.

Definition rows (df : DataFrame) : list (list cell) := rows_of (nrows df) df.

(** [df.duplicated()] with [keep='first']: a row is marked when an earlier
    row is equal to it in every column. *)
Fixpoint duplicated_from (seen rs : list (list cell)) : list bool :=
  match rs with
  | [] => []
  | r :: rs' => existsb (row_eqb r) seen :: duplicated_from (r :: seen) rs'
  end.

Definition duplicated (df : DataFrame) : list bool := duplicated_from [] (rows df).

(** Boolean indexing [x[keep]]. *)
Fixpoint select {A : Type} (keep : list bool) (l : list A) : list A :=
  match keep, l with
  | k :: keep', x :: l' => if k then x :: select keep' l' else select keep' l'
  | _, _ => []
  end.

Definition select_series (keep : list bool) (s : Series) : Series :=
  match s with
  | ObjectSeries v => ObjectSeries (select keep v)
  | Float64Series v => Float64Series (select keep v)
  | Int64Series v => Int64Series (select keep v)
  end.

Definition select_rows (keep : list bool) (df : DataFrame) : DataFrame :=
  map (fun c => (fst c, select_series keep (snd c))) df.

(** [df.drop_duplicates()]: [df[~df.duplicated()]]. *)
Definition drop_duplicates (df : DataFrame) : DataFrame :=
  select_rows (map negb (duplicated df)) df.

(** [s.mode()] of an object column: the non-missing values that occur most
    often, each once, sorted ascending ([algorithms.mode] ends with
    [np.sort]).  Python compares [str] by code point, which on UTF-8 text
    is the byte order of [String.leb]. *)
Definition dropna (v : list (option string)) : list string := omap id v.

Definition value_count (x : string) (l : list string) : nat :=
  length (List.filter (String.eqb x) l).

Definition max_count (l : list string) : nat :=
  fold_right Nat.max 0 (map (fun x => value_count x l) l).

Definition mode (v : list (option string)) : list string :=
  let l := dropna v in
  Sorting.sort String.leb
    (remove_dups (List.filter (fun x => Nat.eqb (value_count x l) (max_count l)) l)).

(** [s.median()] of a float64 column: NaNs are skipped; the middle value of
    the sorted rest, or the mean of the two middle values; NaN when nothing
    is left. *)
Definition notna (v : list float) : list float :=
  List.filter (fun x => negb (is_nan x)) v.

Definition median (v : list float) : float :=
  let s := Sorting.sort PrimFloat.leb (notna v) in
  let n := length s in
  if Nat.eqb n 0 then nan
  else if Nat.odd n then nth (n / 2) s nan
  else ((nth (n / 2 - 1) s nan + nth (n / 2) s nan) / 2)%float.

(** [s.fillna(value)] *)
Definition fillna_object (value : string) (v : list (option string)) : list (option string) :=
  map (fun x => match x with None => Some value | Some _ => x end) v.

Definition fillna_float64 (value : float) (v : list float) : list float :=
  map (fun x => if is_nan x then value else x) v.

End pd.

(** ** [os.path.join] (POSIX), for two components *)

Module os_path.

Definition endswith_sep (a : string) : bool :=
  match String.get (String.length a - 1) a with
  | Some c => Ascii.eqb c "/"%char
  | None => false
  end.

Definition join (a b : string) : string :=
  if String.prefix "/" b then b
  else if Nat.eqb (String.length a) 0 || endswith_sep a then a ++ b
  else a ++ "/" ++ b.

End os_path.

(** ** The world the handlers run in

    Python values are references: the dict [data] maps a key to [None], to a
    reference to a [DataFrame] object in the object store, or to some other
    object.  [df.drop_duplicates(inplace=True)] and [fillna(..., inplace=True)]
    mutate the stored object, whichever names refer to it. *)

Import pd.

Inductive value :=
| VNone
| VDataFrame (ref : positive)
| VOther (repr : string).   (* an object with none of a DataFrame's methods *)

Inductive node :=
| Directory
| File (content : string).

Record world := World {
  data : gmap string value;        (* the dict passed along the chain *)
  objects : gmap positive DataFrame; (* the DataFrame objects *)
  files : gmap string node;        (* the file system, by path *)
  log : list string                (* what logging.info has written *)
}.

Inductive exn :=
| FileNotFoundError (msg : string)
| ValueError (msg : string)
| RuntimeError (msg : string)
| KeyError (key : Z)
| AttributeError (msg : string)
| SystemError (msg : string)     (* a dangling reference: not reachable from Python *)
| LibraryError (origin : string). (* any failure inside pandas' parser or sweetviz *)

(** The messages of the exceptions the source raises. *)
Definition file_not_found (file_name file_path : string) : string :=
  "Файл " ++ file_name ++ " не найден по пути " ++ file_path ++ ".".
Definition no_data_to_clean : string := "Данные отсутствуют для обработки.".
Definition no_data_to_report : string := "Нет данных для создания отчета Sweetviz.".
Definition chain_not_built : string := "Цепочка не была построена.".

(** State and exceptions: an exception keeps the world as it was when raised. *)
Definition M (A : Type) : Type := world -> (exn + A) * world.

Definition ret {A : Type} (a : A) : M A := fun w => (inr a, w).

Definition raise {A : Type} (e : exn) : M A := fun w => (inl e, w).

Definition bind {A B : Type} (c : M A) (k : A -> M B) : M B :=
  fun w =>
    match c w with
    | (inl e, w') => (inl e, w')
    | (inr a, w') => k a w'
    end.

Declare Scope py_scope.
Delimit Scope py_scope with py.
Notation "'let*' x ':=' c 'in' k" := (bind c (fun x => k))
  (at level 10, x name, c at level 100, k at level 200) : py_scope.
Notation "c ';;' k" := (bind c (fun _ => k))
  (at level 100, k at level 200, right associativity) : py_scope.
Local Open Scope py_scope.

Definition get_world : M world := fun w => (inr w, w).
Definition modify (f : world -> world) : M unit := fun w => (inr tt, f w).

Definition logging_info (msg : string) : M unit :=
  modify (fun w => World (data w) (objects w) (files w) (log w ++ [msg])).

(** [data.get(key)]: [None] when the key is absent. *)
Definition dict_get (key : string) : M value :=
  let* w := get_world in ret (default VNone (data w !! key)).

(** [data[key] = v] *)
Definition dict_set (key : string) (v : value) : M unit :=
  modify (fun w => World (<[key := v]> (data w)) (objects w) (files w) (log w)).

Definition deref (ref : positive) : M DataFrame :=
  let* w := get_world in
  match objects w !! ref with
  | Some df => ret df
  | None => raise (SystemError "dangling reference")
  end.

Definition store (ref : positive) (df : DataFrame) : M unit :=
  modify (fun w => World (data w) (<[ref := df]> (objects w)) (files w) (log w)).

(** A new object, at a reference no existing object has. *)
Definition new_object (df : DataFrame) : M positive :=
  let* w := get_world in
  let ref := fresh (dom (objects w)) in
  store ref df ;; ret ref.

Definition os_path_exists (path : string) : M bool :=
  let* w := get_world in ret (bool_decide (is_Some (files w !! path))).

(** [os.makedirs(path)]; the file system is keyed by the path strings the
    program itself uses, so only [path] is entered. *)
Definition os_makedirs (path : string) : M unit :=
  modify (fun w => World (data w) (objects w) (<[path := Directory]> (files w)) (log w)).

Definition write_file (path content : string) : M unit :=
  modify (fun w => World (data w) (objects w) (<[path := File content]> (files w)) (log w)).

(** ** The handlers *)

#[local] Set Warnings "-register-all".

Inductive Handler :=
| OpenCsvHandler (file_path file_name : string) (next_handler : option Handler)
| CleanDataHandler (next_handler : option Handler)
| SweetvizHandler (output_dir : string) (next_handler : option Handler).

Definition next_handler (self : Handler) : option Handler :=
  match self with
  | OpenCsvHandler _ _ n => n
  | CleanDataHandler n => n
  | SweetvizHandler _ n => n
  end.

(** [set_next]: on immutable values the link is made by rebuilding [self];
    Python returns [handler] so that calls can be chained. *)
Definition set_next (self handler : Handler) : Handler :=
  match self with
  | OpenCsvHandler p f _ => OpenCsvHandler p f (Some handler)
  | CleanDataHandler _ => CleanDataHandler (Some handler)
  | SweetvizHandler o _ => SweetvizHandler o (Some handler)
  end.

(** One pass of the loop body of [CleanDataHandler.handle] on a column. *)
Definition fill_column (s : Series) : exn + Series :=
  if isnull_any s then
    match s with
    | ObjectSeries v =>
        match mode v with
        | m :: _ => inr (ObjectSeries (fillna_object m v))
        | [] => inl (KeyError 0)
        end
    | Float64Series v => inr (Float64Series (fillna_float64 (median v) v))
    | Int64Series _ => inr s
    end
  else inr s.

(** [for col in df.columns: ...], in place: when a column raises, the
    columns before it are already filled and the rest are untouched. *)
Fixpoint fill_columns (df : DataFrame) : DataFrame * option exn :=
  match df with
  | [] => ([], None)
  | (name, s) :: rest =>
      match fill_column s with
      | inl e => (df, Some e)
      | inr s' =>
          let r := fill_columns rest in
          ((name, s') :: fst r, snd r)
      end
  end.

(** The external collaborators: what [pd.read_csv] makes of a file's
    contents, and the report [sweetviz] renders for a table ([None] when
    the library raises). *)
Class External := {
  read_csv : string -> option DataFrame;
  sv_analyze : DataFrame -> option string
}.

Section Handlers.

Context {ext : External}.

Definition pd_read_csv (path : string) : M positive :=
  let* w := get_world in
  match files w !! path with
  | Some (File content) =>
      match read_csv content with
      | Some df => new_object df
      | None => raise (LibraryError "pd.read_csv")
      end
  | Some Directory => raise (LibraryError "pd.read_csv")
  | None =>
      raise (FileNotFoundError ("[Errno 2] No such file or directory: '" ++ path ++ "'"))
  end.

Definition OpenCsvHandler_work (file_path file_name : string) : M unit :=
  let dataset_path := os_path.join file_path file_name in
  let* found := os_path_exists dataset_path in
  if negb found then
    raise (FileNotFoundError (file_not_found file_name file_path))
  else
    logging_info ("Чтение данных из файла " ++ file_name ++ "...") ;;
    let* ref := pd_read_csv dataset_path in
    dict_set "df" (VDataFrame ref) ;;
    logging_info "Данные успешно загружены.".

Definition CleanDataHandler_work : M unit :=
  let* df := dict_get "df" in
  match df with
  | VNone => raise (ValueError no_data_to_clean)
  | VOther _ =>
      logging_info "Удаление дублей..." ;;
      raise (AttributeError "drop_duplicates")
  | VDataFrame ref =>
      logging_info "Удаление дублей..." ;;
      (let* t := deref ref in store ref (drop_duplicates t)) ;;
      logging_info "Обработка пропусков..." ;;
      (let* t := deref ref in
       let r := fill_columns t in
       store ref (fst r) ;;
       match snd r with
       | Some e => raise e
       | None => ret tt
       end) ;;
      dict_set "df" df ;;
      logging_info "Данные очищены."
  end.

(** [SweetvizHandler.__init__] *)
Definition SweetvizHandler_init (output_dir : string) : M unit :=
  let* found := os_path_exists output_dir in
  if negb found then os_makedirs output_dir else ret tt.

Definition SweetvizHandler_work (output_dir : string) : M unit :=
  let* df := dict_get "df" in
  match df with
  | VNone => raise (ValueError no_data_to_report)
  | _ =>
      logging_info "Генерация отчета Sweetviz..." ;;
      let report_path := os_path.join output_dir "sweetviz_report.html" in
      match df with
      | VDataFrame ref =>
          let* t := deref ref in
          match sv_analyze t with
          | Some html =>
              write_file report_path html ;;
              logging_info ("Отчет Sweetviz сохранен: " ++ report_path)
          | None => raise (LibraryError "sweetviz")
          end
      | _ => raise (LibraryError "sweetviz")
      end
  end.

(** The stage's own work, before it forwards. *)
Definition own_work (self : Handler) : M unit :=
  match self with
  | OpenCsvHandler file_path file_name _ => OpenCsvHandler_work file_path file_name
  | CleanDataHandler _ => CleanDataHandler_work
  | SweetvizHandler output_dir _ => SweetvizHandler_work output_dir
  end.

(** [handle]: every concrete handler ends with [return super().handle(data)],
    and [Handler.handle] is
    [if self.next_handler: return self.next_handler.handle(data)] /
    [return data]. *)
Fixpoint handle (self : Handler) : M (gmap string value) :=
  let super_handle :=
    match next_handler self with
    | Some next => handle next
    | None => let* w := get_world in ret (data w)
    end in
  match self with
  | OpenCsvHandler file_path file_name _ =>
      OpenCsvHandler_work file_path file_name ;; super_handle
  | CleanDataHandler _ => CleanDataHandler_work ;; super_handle
  | SweetvizHandler output_dir _ => SweetvizHandler_work output_dir ;; super_handle
  end.

(** ** [EDAFlow] *)

(** The configuration, with its three required fields. *)
Record Config := {
  datasets_dir : string;
  file_name : string;
  output_dir : string
}.

Record EDAFlow := {
  config : Config;
  chain : option Handler
}.

(** [EDAFlow.__init__] *)
Definition EDAFlow_init (cfg : Config) : EDAFlow :=
  {| config := cfg; chain := None |}.

Definition build_chain (self : EDAFlow) : M EDAFlow :=
  let cfg := config self in
  let head := OpenCsvHandler (datasets_dir cfg) (file_name cfg) None in
  let clean := CleanDataHandler None in
  SweetvizHandler_init (output_dir cfg) ;;
  let report := SweetvizHandler (output_dir cfg) None in
  ret {| config := cfg; chain := Some (set_next head (set_next clean report)) |}.

(** [data={}]: the chain starts from a new, empty dict. *)
Definition new_dict : M unit :=
  modify (fun w => World ∅ (objects w) (files w) (log w)).

Definition execute (self : EDAFlow) : M unit :=
  match chain self with
  | None => raise (RuntimeError chain_not_built)
  | Some head =>
      logging_info "Начало выполнения цепочки анализа данных." ;;
      new_dict ;;
      handle head ;;
      ret tt
  end.

End Handlers.

(** The table the dict holds under the key ["df"], if any. *)
Definition table (w : world) : option DataFrame :=
  match data w !! "df" with
  | Some (VDataFrame ref) => objects w !! ref
  | _ => None
  end.

(** The key is absent, or its value is [None]. *)
Definition table_missing (w : world) : Prop :=
  data w !! "df" = None \/ data w !! "df" = Some VNone.

(** No stage of the chain is a loading stage. *)
Fixpoint no_loader (h : Handler) : bool :=
  match h with
  | OpenCsvHandler _ _ _ => false
  | CleanDataHandler next | SweetvizHandler _ next =>
      match next with
      | Some n => no_loader n
      | None => true
      end
  end.

(** Every stage of the chain is a report stage; [then_reports next] says so
    of the stages after a given one (possibly none). *)
Fixpoint reports_only (h : Handler) : bool :=
  match h with
  | SweetvizHandler _ next =>
      match next with
      | Some n => reports_only n
      | None => true
      end
  | _ => false
  end.

Definition then_reports (next : option Handler) : bool :=
  match next with
  | Some n => reports_only n
  | None => true
  end.

(** ** What imputation is expected to do to a column *)

(** The modal values of a column: those that occur most often among the
    non-missing entries. *)
Definition modal (v : list (option string)) (x : string) : Prop :=
  In x (dropna v) /\
  forall y, value_count y (dropna v) <= value_count x (dropna v).

(** [m] is the median of [v]: the middle of the non-missing values in
    ascending order, or the mean of the two middle ones; NaN when there is
    none. *)
Definition is_median (v : list float) (m : float) : Prop :=
  exists s,
    Permutation (notna v) s /\
    StronglySorted (fun a b => (a <=? b)%float = true) s /\
    m = if Nat.eqb (length s) 0 then nan
        else if Nat.odd (length s) then nth (length s / 2) s nan
        else ((nth (length s / 2 - 1) s nan + nth (length s / 2) s nan) / 2)%float.

(** [s'] is [s] with its missing entries filled: a text column with the least
    of its modal values, a float column with its median; a column with
    nothing missing is unchanged. *)
Definition imputed (s s' : Series) : Prop :=
  if isnull_any s then
    match s with
    | ObjectSeries v =>
        exists m,
          modal v m /\ (forall x, modal v x -> String.leb m x = true) /\
          s' = ObjectSeries (fillna_object m v)
    | Float64Series v =>
        exists m, is_median v m /\ s' = Float64Series (fillna_float64 m v)
    | Int64Series _ => s' = s
    end
  else s' = s.

(** Imputation changes missing cells only: [c'] is [c] unless [c] is missing. *)
Definition kept (c c' : cell) : Prop := isnull c = false -> c' = c.

(** A column the cleaning step cannot change any more: nothing is missing, or
    it is a float column whose median is NaN (NaN is filled with NaN). *)
Definition settled (s : Series) : Prop :=
  isnull_any s = false \/
  exists v, s = Float64Series v /\ is_nan (median v) = true.

(** ** Sample inputs *)

Module sample.

(** Libraries that always deliver: every file parses to [t], every table
    renders. *)
Definition libraries (t : DataFrame) : External :=
  {| read_csv := fun _ => Some t; sv_analyze := fun _ => Some "<html/>" |}.

Definition lib : External := libraries [].

Definition empty_world : world := World ∅ ∅ ∅ [].

(** A world whose dict holds the table [t] under ["df"]. *)
Definition world_with (t : DataFrame) : world :=
  World {[ "df" := VDataFrame 1%positive ]} {[ 1%positive := t ]} ∅ [].

(** Two rows that differ only in a missing cell. *)
Definition twins : DataFrame :=
  [("a", Float64Series [1; 1]%float); ("b", Float64Series [nan; 2]%float)].

(** A text column whose two values tie, the later one being the smaller. *)
Definition tie : DataFrame := [("c", ObjectSeries [Some "b"; Some "a"; None])].

Definition text_aab : DataFrame :=
  [("c", ObjectSeries [Some "a"; Some "a"; Some "b"; None])].

Definition odd_count : DataFrame := [("x", Float64Series [1; 2; 3; nan]%float)].

Definition even_count : DataFrame := [("x", Float64Series [1; 2; 3; 4; nan]%float)].

(** A float column with no value at all. *)
Definition blank : DataFrame :=
  [("id", Int64Series [7; 8]%Z); ("x", Float64Series [nan; nan]%float)].

(** Distinct rows that stay distinct once the gap is filled. *)
Definition indexed : DataFrame :=
  [("id", Int64Series [1; 2; 3]%Z); ("x", Float64Series [1; nan; 3]%float)].

(** A dict with other keys besides the table, one of them another frame. *)
Definition busy_world : world :=
  World {[ "df" := VDataFrame 1%positive; "raw" := VDataFrame 2%positive;
           "note" := VOther "run 7" ]}
        {[ 1%positive := twins; 2%positive := tie ]}
        {[ "/tmp/in/d.csv" := File "a,b" ]} [].

(** A disk holding the input file, and nothing loaded yet. *)
Definition disk_world : world :=
  World ∅ ∅ {[ "/tmp/in/d.csv" := File "a,b" ]} [].

Definition config : Config :=
  {| datasets_dir := "/tmp/in"; file_name := "d.csv"; output_dir := "/tmp/out" |}.

End sample.

(** ** Further definitions: stages, shapes, the built chain *)

(** [w'] keeps what [w] has: every dict key, object and file is still there,
    the dict is the same outside ["df"], and the log has only grown. *)
Definition grows (w w' : world) : Prop :=
  (forall k, is_Some (data w !! k) -> is_Some (data w' !! k)) /\
  (forall k, k <> "df" -> data w' !! k = data w !! k) /\
  (forall r, is_Some (objects w !! r) -> is_Some (objects w' !! r)) /\
  (forall p, is_Some (files w !! p) -> is_Some (files w' !! p)) /\
  (exists more, log w' = app (log w) more).

(** The stages of a chain, head first. *)
Fixpoint stages (h : Handler) : list Handler :=
  h :: match next_handler h with
       | Some next => stages next
       | None => []
       end.

(** A text column that has rows and no value in any of them. *)
Definition blank_text (s : Series) : bool :=
  match s with
  | ObjectSeries (x :: v) => forallb (fun o => bool_decide (o = None)) (x :: v)
  | _ => false
  end.


(** The chain that [build_chain] builds for a configuration. *)
Definition built_chain (cfg : Config) : Handler :=
  OpenCsvHandler (datasets_dir cfg) (file_name cfg)
    (Some (CleanDataHandler (Some (SweetvizHandler (output_dir cfg) None)))).

(** Where the report goes. *)
Definition report_path (output_dir : string) : string :=
  os_path.join output_dir "sweetviz_report.html".

Section Running.

Context {ext : External}.

(** The stages' own work, one after the other, stopping at the first
    exception. *)
Fixpoint run_stages (l : list Handler) : M unit :=
  match l with
  | [] => ret tt
  | h :: rest => own_work h ;; run_stages rest
  end.


End Running.

(** ** Handlers as mutable objects

    In Python a handler is an object and [set_next] assigns its
    [next_handler] attribute.  Here the handlers live in a store and link to
    each other by reference. *)

Inductive stage_fields :=
| OpenCsvFields (file_path file_name : string)
| CleanDataFields
| SweetvizFields (output_dir : string).

Record HandlerObject := {
  fields : stage_fields;
  next_ref : option positive
}.

(** [Handler.__init__]: a new handler has no successor. *)
Definition new_handler (f : stage_fields) : HandlerObject :=
  {| fields := f; next_ref := None |}.

(** [self.set_next(handler)]: assigns the link and returns [handler]. *)
Definition set_next_ref (self handler : positive) (hs : gmap positive HandlerObject)
  : gmap positive HandlerObject * positive :=
  (alter (fun o => {| fields := fields o; next_ref := Some handler |}) self hs, handler).

Definition handler_of (f : stage_fields) (next : option Handler) : Handler :=
  match f with
  | OpenCsvFields p n => OpenCsvHandler p n next
  | CleanDataFields => CleanDataHandler next
  | SweetvizFields o => SweetvizHandler o next
  end.

(** The chain that starts at [ref], followed for at most [fuel] links. *)
Fixpoint chain_from (fuel : nat) (hs : gmap positive HandlerObject) (ref : positive)
  : option Handler :=
  match fuel with
  | 0 => None
  | S fuel' =>
      match hs !! ref with
      | None => None
      | Some o =>
          match next_ref o with
          | None => Some (handler_of (fields o) None)
          | Some r =>
              match chain_from fuel' hs r with
              | Some c => Some (handler_of (fields o) (Some c))
              | None => None
              end
          end
      end
  end.

(** ** More sample inputs *)

Module more_samples.




(** [sample.indexed], cleaned. *)
Definition indexed_cleaned : DataFrame :=
  [("id", Int64Series [1; 2; 3]%Z); ("x", Float64Series [1; 2; 3]%float)].

(** The three handler objects of [build_chain], not linked yet. *)
Definition handlers : gmap positive HandlerObject :=
  {[ 1%positive := new_handler (OpenCsvFields "/tmp/in" "d.csv");
     2%positive := new_handler CleanDataFields;
     3%positive := new_handler (SweetvizFields "/tmp/out") ]}.

End more_samples.

(** * Properties *)

(** ** Sorting *)

Module sort_facts.
Import Sorting.

Section Sort.
Context {A : Type} (leb : A -> A -> bool).

Lemma insert_sorted_perm x l : Permutation (x :: l) (insert_sorted leb x l).
Proof.
  induction l as [|y l IH]; simpl; [reflexivity|].
  destruct (leb x y); [reflexivity|].
  rewrite perm_swap. now constructor.
Qed.

Lemma sort_perm l : Permutation l (sort leb l).
Proof.
  induction l as [|x l IH]; simpl; [constructor|].
  etransitivity; [|apply insert_sorted_perm]. now constructor.
Qed.

Lemma sort_In x l : In x (sort leb l) <-> In x l.
Proof.
  split; apply Permutation_in;
    [symmetry|]; apply sort_perm.
Qed.

(** The order facts are only needed on the elements that are sorted
    (floats are totally ordered once the NaNs are removed). *)
Variable P : A -> Prop.
Hypothesis leb_total : forall a b, P a -> P b -> leb a b = false -> leb b a = true.
Hypothesis leb_trans :
  forall a b c, leb a b = true -> leb b c = true -> leb a c = true.

Definition le (a b : A) : Prop := leb a b = true.

Lemma insert_sorted_sorted x l :
  P x -> Forall P l ->
  StronglySorted le l -> StronglySorted le (insert_sorted leb x l).
Proof.
  intros Px. induction l as [|y l IH]; intros HP Hs; simpl.
  - repeat constructor.
  - inversion HP as [|? ? Py HPl]; subst.
    inversion Hs as [|? ? Hsl Hall]; subst.
    destruct (leb x y) eqn:Hxy.
    + constructor; [assumption|]. constructor; [exact Hxy|].
      eapply Forall_impl; [exact Hall|]. intros z Hz.
      unfold le in *. eapply leb_trans; eassumption.
    + constructor; [now apply IH|].
      eapply Permutation_Forall; [apply insert_sorted_perm|].
      constructor; [|assumption]. now apply leb_total.
Qed.

Lemma sort_sorted l : Forall P l -> StronglySorted le (sort leb l).
Proof.
  induction l as [|x l IH]; intros HP; simpl; [constructor|].
  inversion HP; subst.
  apply insert_sorted_sorted; auto.
  eapply Permutation_Forall; [apply sort_perm|assumption].
Qed.

(** The first element of a sorted list is a least element. *)
Lemma sort_head_least l x rest :
  Forall P l -> sort leb l = x :: rest -> forall y, In y l -> y = x \/ le x y.
Proof.
  intros HP Hsort y Hy.
  pose proof (sort_sorted l HP) as Hs. rewrite Hsort in Hs.
  apply sort_In in Hy. rewrite Hsort in Hy.
  destruct Hy as [->|Hy]; [now left|right].
  inversion Hs as [|? ? _ Hall]; subst.
  rewrite List.Forall_forall in Hall. now apply Hall.
Qed.
End Sort.
End sort_facts.

(** ** Binary64 facts

    A float64 column stores a missing value as NaN.  The facts below come from
    the specification of the primitive floats: NaN is a single value, and
    [<=?] is a total preorder on the floats that are not NaN. *)

Module FloatFacts.
Lemma Prim2SF_nan x : is_nan x = true -> Prim2SF x = S754_nan.
Proof. intros H. unfold Prim2SF. now rewrite H. Qed.

Lemma Prim2SF_not_nan x : is_nan x = false -> Prim2SF x <> S754_nan.
Proof.
  intros H. unfold Prim2SF. rewrite H.
  destruct (is_zero x); [discriminate|].
  destruct (is_infinity x); [discriminate|].
  destruct (Z.frexp x) as [r e].
  destruct (shr_fexp _ _ _ _ _) as [shr e'].
  destruct (shr_m shr); discriminate.
Qed.

Lemma nan_unique x y : is_nan x = true -> is_nan y = true -> x = y.
Proof.
  intros Hx Hy. apply Prim2SF_inj.
  now rewrite (Prim2SF_nan x Hx), (Prim2SF_nan y Hy).
Qed.

Ltac fold_pos_compare :=
  repeat match goal with
    | |- context [Pos.compare_cont Eq ?a ?b] =>
        change (Pos.compare_cont Eq a b) with (Pos.compare a b)
    | H : context [Pos.compare_cont Eq ?a ?b] |- _ =>
        change (Pos.compare_cont Eq a b) with (Pos.compare a b) in H
    end.

Ltac by_compare_specs :=
  fold_pos_compare;
  repeat match goal with
    | |- context [Z.compare ?a ?b] => destruct (Z.compare_spec a b)
    | H : context [Z.compare ?a ?b] |- _ => destruct (Z.compare_spec a b)
    | |- context [Pos.compare ?a ?b] => destruct (Pos.compare_spec a b)
    | H : context [Pos.compare ?a ?b] |- _ => destruct (Pos.compare_spec a b)
    end; simpl in *; try congruence; try lia.

Lemma SFleb_total a b :
  a <> S754_nan -> b <> S754_nan -> SFleb a b = false -> SFleb b a = true.
Proof.
  unfold SFleb.
  destruct a as [sa|sa| |sa ma ea], b as [sb|sb| |sb mb eb]; simpl; try congruence;
    intros _ _;
    repeat match goal with s : bool |- _ => destruct s end; simpl; try congruence;
    by_compare_specs.
Qed.

Lemma SFleb_trans a b c :
  SFleb a b = true -> SFleb b c = true -> SFleb a c = true.
Proof.
  unfold SFleb.
  destruct a as [sa|sa| |sa ma ea], b as [sb|sb| |sb mb eb], c as [sc|sc| |sc mc ec];
    simpl; try congruence;
    repeat match goal with s : bool |- _ => destruct s end; simpl; try congruence;
    intros H1 H2; by_compare_specs.
Qed.

Lemma leb_total x y :
  is_nan x = false -> is_nan y = false -> (x <=? y)%float = false -> (y <=? x)%float = true.
Proof.
  rewrite !leb_spec. intros Hx Hy.
  apply SFleb_total; now apply Prim2SF_not_nan.
Qed.

Lemma leb_trans x y z :
  (x <=? y)%float = true -> (y <=? z)%float = true -> (x <=? z)%float = true.
Proof. rewrite !leb_spec. apply SFleb_trans. Qed.
End FloatFacts.

(** ** Boolean indexing and rows *)

Module pd_facts.

Lemma select_map {A B : Type} (f : A -> B) keep (l : list A) :
  select keep (map f l) = map f (select keep l).
Proof.
  revert l. induction keep as [|k keep IH]; intros [|x l]; simpl; try reflexivity.
  destruct k; simpl; now rewrite IH.
Qed.

Lemma select_zip_with {A B C : Type} (f : A -> B -> C) keep (a : list A) (b : list B) :
  select keep (zip_with f a b) = zip_with f (select keep a) (select keep b).
Proof.
  assert (Hnil : forall l : list A, zip_with f l (@nil B) = [])
    by (now intros [|? ?]).
  revert a b. induction keep as [|k keep IH]; intros [|x a] [|y b]; simpl;
    try reflexivity.
  - destruct k; [reflexivity|]. now rewrite Hnil.
  - destruct k; simpl; now rewrite IH.
Qed.

Lemma select_repeat {A : Type} (x : A) keep :
  select keep (repeat x (length keep)) = repeat x (length (List.filter id keep)).
Proof.
  induction keep as [|k keep IH]; simpl; [reflexivity|].
  destruct k; simpl; now rewrite IH.
Qed.

Lemma select_length {A : Type} keep (l : list A) :
  length keep = length l -> length (select keep l) = length (List.filter id keep).
Proof.
  revert l. induction keep as [|k keep IH]; intros [|x l]; simpl; try discriminate;
    [reflexivity|].
  intros [= H]. destruct k; simpl; now rewrite IH.
Qed.

Lemma select_all {A : Type} keep (l : list A) :
  length keep = length l -> forallb id keep = true -> select keep l = l.
Proof.
  revert l. induction keep as [|k keep IH]; intros [|x l]; simpl; try discriminate;
    [reflexivity|].
  intros [= H]. destruct k; simpl; [|discriminate].
  intros Hall. now rewrite IH.
Qed.

Lemma cells_select keep s : cells (select_series keep s) = select keep (cells s).
Proof. destruct s; simpl; now rewrite select_map. Qed.

Lemma len_select keep s :
  length keep = len s -> len (select_series keep s) = length (List.filter id keep).
Proof. unfold len. rewrite cells_select. apply select_length. Qed.

Lemma rectangular_spec df :
  rectangular df = true <-> Forall (fun c => len (snd c) = nrows df) df.
Proof.
  unfold rectangular. rewrite forallb_forall, List.Forall_forall.
  split; intros H c Hc; specialize (H c Hc); now apply Nat.eqb_eq.
Qed.

Lemma rows_of_length n df :
  Forall (fun c => len (snd c) = n) df -> length (rows_of n df) = n.
Proof.
  induction df as [|[name s] df IH]; simpl; intros H.
  - apply repeat_length.
  - inversion H; subst. rewrite length_zip_with, IH by assumption.
    unfold len in *. simpl in *. lia.
Qed.

Lemma rows_length df : rectangular df = true -> length (rows df) = nrows df.
Proof. intros H. apply rows_of_length. now apply rectangular_spec. Qed.

Lemma rows_of_select n keep df :
  length keep = n ->
  Forall (fun c => len (snd c) = n) df ->
  rows_of (length (List.filter id keep)) (select_rows keep df)
  = select keep (rows_of n df).
Proof.
  intros Hk. induction df as [|[name s] df IH]; simpl; intros H.
  - subst n. now rewrite select_repeat.
  - inversion H; subst. rewrite select_zip_with, cells_select. now rewrite IH.
Qed.

Lemma nrows_select keep df :
  df <> [] -> length keep = nrows df ->
  nrows (select_rows keep df) = length (List.filter id keep).
Proof.
  destruct df as [|[name s] df]; [congruence|]. simpl. intros _.
  apply len_select.
Qed.

Lemma rectangular_select keep df :
  rectangular df = true -> length keep = nrows df ->
  rectangular (select_rows keep df) = true.
Proof.
  intros Hr Hk. destruct df as [|c0 df]; [reflexivity|].
  apply rectangular_spec. rewrite nrows_select by (congruence || assumption).
  apply rectangular_spec in Hr. unfold select_rows.
  rewrite List.Forall_forall in *. intros c Hc.
  apply in_map_iff in Hc as [c' [<- Hc']]. simpl.
  apply len_select. rewrite Hk. symmetry. now apply Hr.
Qed.

Lemma rows_select keep df :
  rectangular df = true -> length keep = nrows df ->
  rows (select_rows keep df) = select keep (rows df).
Proof.
  intros Hr Hk. unfold rows. destruct df as [|c0 df].
  - simpl in *. now destruct keep.
  - rewrite nrows_select by (congruence || assumption).
    apply rows_of_select; [assumption|]. now apply rectangular_spec.
Qed.

(** ** [duplicated] and [drop_duplicates] *)

Lemma duplicated_from_length seen rs : length (duplicated_from seen rs) = length rs.
Proof.
  revert seen. induction rs as [|r rs IH]; intros seen; simpl; [reflexivity|].
  now rewrite IH.
Qed.

Lemma duplicated_length df : rectangular df = true -> length (duplicated df) = nrows df.
Proof.
  intros H. unfold duplicated. now rewrite duplicated_from_length, rows_length.
Qed.

(** No row that was kept is marked again, whatever was seen before is a
    subset (up to row equality) of what the first pass had seen. *)
Lemma duplicated_from_kept seen seen' rs :
  (forall r, existsb (row_eqb r) seen' = true -> existsb (row_eqb r) seen = true) ->
  existsb id
    (duplicated_from seen' (select (map negb (duplicated_from seen rs)) rs)) = false.
Proof.
  revert seen seen'. induction rs as [|r rs IH]; intros seen seen' Hcov; simpl;
    [reflexivity|].
  destruct (existsb (row_eqb r) seen) eqn:Hr; simpl.
  - apply IH. intros r0 H0. simpl. rewrite (Hcov r0 H0). apply orb_true_r.
  - destruct (existsb (row_eqb r) seen') eqn:Hr'.
    + apply Hcov in Hr'. congruence.
    + simpl. apply IH. intros r0. simpl.
      destruct (row_eqb r0 r); simpl; [reflexivity|]. apply Hcov.
Qed.

Lemma rows_drop_duplicates df :
  rectangular df = true ->
  rows (drop_duplicates df) = select (map negb (duplicated df)) (rows df).
Proof.
  intros Hr. unfold drop_duplicates. apply rows_select; [assumption|].
  rewrite length_map. now apply duplicated_length.
Qed.

Lemma rectangular_drop_duplicates df :
  rectangular df = true -> rectangular (drop_duplicates df) = true.
Proof.
  intros Hr. apply rectangular_select; [assumption|].
  rewrite length_map. now apply duplicated_length.
Qed.

(** [df.drop_duplicates().duplicated().any()] is [False]. *)
Lemma drop_duplicates_no_duplicates df :
  rectangular df = true -> existsb id (duplicated (drop_duplicates df)) = false.
Proof.
  intros Hr. unfold duplicated at 1. rewrite rows_drop_duplicates by assumption.
  unfold duplicated. now apply duplicated_from_kept.
Qed.

(** A frame without duplicates is left as it is. *)
Lemma drop_duplicates_id df :
  rectangular df = true -> existsb id (duplicated df) = false -> drop_duplicates df = df.
Proof.
  intros Hr Hd. unfold drop_duplicates, select_rows.
  assert (Hall : forallb id (map negb (duplicated df)) = true).
  { apply forallb_forall. intros b Hb. apply in_map_iff in Hb as [b' [<- Hb']].
    destruct b'; [|reflexivity].
    assert (existsb id (duplicated df) = true) by (apply existsb_exists; now exists true).
    congruence. }
  apply rectangular_spec in Hr. rewrite List.Forall_forall in Hr.
  rewrite <- (map_id df) at 2. apply map_ext_in. intros [name s] Hc.
  simpl. f_equal.
  assert (Hl : length (map negb (duplicated df)) = length (cells s)).
  { rewrite length_map, duplicated_length.
    - symmetry. apply (Hr _ Hc).
    - apply rectangular_spec, List.Forall_forall, Hr. }
  destruct s; simpl in *; f_equal; rewrite !length_map in Hl;
    apply select_all; try assumption; now rewrite length_map.
Qed.

(** Without a marked row, no row equals an earlier one. *)
Lemma duplicated_from_none seen rs :
  existsb id (duplicated_from seen rs) = false ->
  (forall j rj, rs !! j = Some rj -> existsb (row_eqb rj) seen = false) /\
  (forall i j ri rj, i < j -> rs !! i = Some ri -> rs !! j = Some rj ->
     row_eqb rj ri = false).
Proof.
  revert seen. induction rs as [|r rs IH]; intros seen; simpl.
  - intros _. split; intros; discriminate.
  - intros H. apply orb_false_iff in H as [Hr Hrest]. unfold id in Hr.
    destruct (IH (r :: seen) Hrest) as [Hseen Hpairs]. split.
    + intros [|j] rj; simpl; [now intros [= <-]|].
      intros Hj. specialize (Hseen j rj Hj). simpl in Hseen.
      now apply orb_false_iff in Hseen as [_ ?].
    + intros [|i] [|j] ri rj Hij; simpl; try lia.
      * intros [= <-] Hj. specialize (Hseen j rj Hj). simpl in Hseen.
        now apply orb_false_iff in Hseen as [? _].
      * apply Hpairs. lia.
Qed.

End pd_facts.

(** ** The statistics: [mode] and [median] *)

Module stat_facts.

Lemma string_leb_trans a b c :
  String.leb a b = true -> String.leb b c = true -> String.leb a c = true.
Proof.
  unfold String.leb.
  destruct (String.compare a b) eqn:Hab; try discriminate;
    destruct (String.compare b c) eqn:Hbc; try discriminate; intros _ _.
  - apply String_as_OT.cmp_eq in Hab. subst. now rewrite Hbc.
  - apply String_as_OT.cmp_eq in Hab. subst. now rewrite Hbc.
  - apply String_as_OT.cmp_eq in Hbc. subst. now rewrite Hab.
  - apply String_as_OT.cmp_lt in Hab, Hbc.
    pose proof (String_as_OT.lt_trans _ _ _ Hab Hbc) as Hac.
    apply String_as_OT.cmp_lt in Hac. unfold String_as_OT.cmp in Hac.
    now rewrite Hac.
Qed.

Lemma string_leb_total a b : String.leb a b = false -> String.leb b a = true.
Proof. destruct (String.leb_total a b); congruence. Qed.

Lemma string_leb_refl a : String.leb a a = true.
Proof. destruct (String.leb_total a a); assumption. Qed.

Lemma max_count_upper (f : string -> nat) x l :
  In x l -> f x <= fold_right Nat.max 0 (map f l).
Proof.
  induction l as [|y l IH]; simpl; [tauto|].
  intros [->|H]; [lia|]. specialize (IH H). lia.
Qed.

Lemma max_count_attained (f : string -> nat) l :
  l <> [] -> exists x, In x l /\ f x = fold_right Nat.max 0 (map f l).
Proof.
  induction l as [|y l IH]; [congruence|]. intros _. simpl.
  destruct l as [|z l].
  - exists y. simpl. split; [now left|lia].
  - destruct IH as [x [Hx Hfx]]; [congruence|].
    destruct (Nat.max_spec (f y) (fold_right Nat.max 0 (map f (z :: l)))) as [[_ E]|[_ E]].
    + exists x. split; [now right|]. now rewrite E.
    + exists y. split; [now left|]. now rewrite E.
Qed.

Lemma modal_iff v x :
  modal v x <->
  In x (dropna v) /\ value_count x (dropna v) = max_count (dropna v).
Proof.
  unfold modal, max_count. set (l := dropna v). split; intros [Hin H]; split; auto.
  - apply Nat.le_antisymm.
    + now apply (max_count_upper (fun y => value_count y l)).
    + destruct (max_count_attained (fun y => value_count y l) l) as [y [_ <-]].
      * intros E. now rewrite E in Hin.
      * apply H.
  - intros y. rewrite H.
    destruct (in_dec string_dec y l) as [Hy|Hy].
    + now apply (max_count_upper (fun y => value_count y l)).
    + assert (value_count y l = 0); [|lia].
      unfold value_count. apply length_zero_iff_nil.
      destruct (List.filter (String.eqb y) l) as [|z ?] eqn:E; [reflexivity|].
      assert (Hz : In z (List.filter (String.eqb y) l)) by (rewrite E; now left).
      apply filter_In in Hz as [Hz Hyz]. apply String.eqb_eq in Hyz. now subst.
Qed.

Lemma In_mode v x : In x (mode v) <-> modal v x.
Proof.
  rewrite modal_iff. unfold mode.
  rewrite sort_facts.sort_In, <- list_elem_of_In, elem_of_remove_dups, list_elem_of_In.
  rewrite filter_In, Nat.eqb_eq. reflexivity.
Qed.

(** [mode()[0]] is a modal value, and the least one in string order. *)
Lemma mode_head v m rest :
  mode v = m :: rest ->
  modal v m /\ forall x, modal v x -> String.leb m x = true.
Proof.
  intros Hm. split.
  - apply In_mode. rewrite Hm. now left.
  - intros x Hx. apply In_mode in Hx.
    unfold mode in Hm, Hx. apply sort_facts.sort_In in Hx.
    destruct (sort_facts.sort_head_least String.leb (fun _ => True)
                (fun a b _ _ => string_leb_total a b) string_leb_trans
                _ m rest (Forall_true _ _ (fun _ => I)) Hm x Hx) as [->|H].
    + apply string_leb_refl.
    + exact H.
Qed.

(** [mode()] is empty exactly when every entry is missing. *)
Lemma mode_nil v : mode v = [] <-> dropna v = [].
Proof.
  split; intros H.
  - destruct (dropna v) as [|y l] eqn:E; [reflexivity|exfalso].
    destruct (max_count_attained (fun x => value_count x (dropna v)) (dropna v))
      as [x [Hx Hc]]; [now rewrite E|].
    assert (Hin : In x (mode v)) by (apply In_mode, modal_iff; now split).
    now rewrite H in Hin.
  - destruct (mode v) as [|m rest] eqn:E; [reflexivity|exfalso].
    destruct (mode_head v m rest E) as [[Hin _] _]. now rewrite H in Hin.
Qed.

Lemma notna_Forall v : Forall (fun x => is_nan x = false) (notna v).
Proof.
  apply List.Forall_forall. intros x Hx. apply filter_In in Hx as [_ Hx].
  now apply negb_true_iff.
Qed.

(** [median] is the middle of the sorted non-missing values, or the mean of
    the two middle ones. *)
Lemma median_spec v : is_median v (median v).
Proof.
  exists (Sorting.sort PrimFloat.leb (notna v)). split; [apply sort_facts.sort_perm|].
  split; [|reflexivity].
  apply (sort_facts.sort_sorted PrimFloat.leb (fun x => is_nan x = false)).
  - apply FloatFacts.leb_total.
  - apply FloatFacts.leb_trans.
  - apply notna_Forall.
Qed.

End stat_facts.

(** ** The imputation loop *)

Module clean_facts.

Lemma isnull_any_int v : isnull_any (Int64Series v) = false.
Proof. unfold isnull_any. simpl. now induction v. Qed.

Lemma fillna_object_notnull m v : isnull_any (ObjectSeries (fillna_object m v)) = false.
Proof.
  unfold isnull_any, fillna_object. simpl.
  induction v as [|[x|] v IH]; simpl; auto.
Qed.

Lemma fillna_float64_notnull m v :
  is_nan m = false -> isnull_any (Float64Series (fillna_float64 m v)) = false.
Proof.
  intros Hm. unfold isnull_any, fillna_float64. simpl.
  induction v as [|x v IH]; simpl; [reflexivity|].
  destruct (is_nan x) eqn:Hx; simpl; now rewrite ?Hm, ?Hx.
Qed.

Lemma fillna_float64_nan m v : is_nan m = true -> fillna_float64 m v = v.
Proof.
  intros Hm. unfold fillna_float64. rewrite <- (map_id v) at 2.
  apply map_ext. intros x. destruct (is_nan x) eqn:Hx; [|reflexivity].
  now apply FloatFacts.nan_unique.
Qed.

Lemma fill_column_settled s s' : fill_column s = inr s' -> settled s'.
Proof.
  unfold fill_column. destruct (isnull_any s) eqn:Hn.
  - destruct s as [v|v|v].
    + destruct (mode v) as [|m rest]; intros [= <-].
      left. apply fillna_object_notnull.
    + intros [= <-]. destruct (is_nan (median v)) eqn:Hm.
      * right. exists v. now rewrite fillna_float64_nan.
      * left. now apply fillna_float64_notnull.
    + intros [= <-]. left. apply isnull_any_int.
  - intros [= <-]. now left.
Qed.

Lemma fill_column_fixed s : settled s -> fill_column s = inr s.
Proof.
  unfold fill_column. intros [Hs|[v [-> Hm]]].
  - now rewrite Hs.
  - destruct (isnull_any (Float64Series v)); [|reflexivity].
    now rewrite fillna_float64_nan.
Qed.

Lemma fill_column_len s s' : fill_column s = inr s' -> len s' = len s.
Proof.
  unfold fill_column, len, fillna_object, fillna_float64.
  destruct (isnull_any s); [|now intros [= <-]].
  destruct s as [v|v|v]; [destruct (mode v)|..]; intros [= <-]; simpl;
    now rewrite ?length_map.
Qed.

(** The loop raises only on an object column with no value at all. *)
Lemma fill_column_error s e :
  fill_column s = inl e ->
  e = KeyError 0 /\ exists v, s = ObjectSeries v /\ dropna v = [] /\ v <> [].
Proof.
  unfold fill_column. destruct (isnull_any s) eqn:Hn; [|discriminate].
  destruct s as [v|v|v]; try discriminate.
  destruct (mode v) as [|m rest] eqn:Hm; [|discriminate].
  intros [= <-]. split; [reflexivity|]. exists v. split; [reflexivity|].
  split; [now apply stat_facts.mode_nil|]. intros ->. discriminate.
Qed.

(** The loop over the columns. *)
Lemma fill_columns_ok df df' :
  fill_columns df = (df', None) ->
  Forall2 (fun c c' => fst c' = fst c /\ fill_column (snd c) = inr (snd c')) df df'.
Proof.
  revert df'. induction df as [|[name s] df IH]; simpl; intros df'.
  - intros [= <-]. constructor.
  - destruct (fill_column s) as [e|s'] eqn:Hs; [discriminate|].
    destruct (fill_columns df) as [rest err] eqn:Hrest. simpl.
    intros [= <- ->]. constructor; [now split|]. now apply IH.
Qed.

Lemma fill_columns_fixed df :
  Forall (fun c => settled (snd c)) df -> fill_columns df = (df, None).
Proof.
  induction df as [|[name s] df IH]; simpl; intros H; [reflexivity|].
  inversion H as [|? ? Hs Hdf]; subst. simpl in Hs.
  now rewrite (fill_column_fixed s Hs), (IH Hdf).
Qed.

Lemma fill_columns_settled df df' :
  fill_columns df = (df', None) -> Forall (fun c => settled (snd c)) df'.
Proof.
  intros H. apply fill_columns_ok in H.
  induction H as [|c c' df df' [_ Hc] _ IH]; constructor; [|exact IH].
  now apply fill_column_settled in Hc.
Qed.

Lemma fill_columns_error df df' e :
  fill_columns df = (df', Some e) ->
  e = KeyError 0 /\
  exists name v, In (name, ObjectSeries v) df /\ dropna v = [] /\ v <> [].
Proof.
  revert df'. induction df as [|[name s] df IH]; simpl; intros df'; [discriminate|].
  destruct (fill_column s) as [e'|s'] eqn:Hs.
  - intros [= <- <-]. apply fill_column_error in Hs as [-> [v [-> [Hv Hne]]]].
    split; [reflexivity|]. exists name, v. auto.
  - destruct (fill_columns df) as [rest err] eqn:Hrest. simpl.
    intros [= <- ->]. destruct (IH rest eq_refl) as [-> [n [v [Hin Hv]]]].
    split; [reflexivity|]. exists n, v. auto.
Qed.

Lemma fill_columns_rectangular df df' :
  fill_columns df = (df', None) -> rectangular df = true -> rectangular df' = true.
Proof.
  intros H Hr. apply fill_columns_ok in H.
  apply pd_facts.rectangular_spec in Hr. apply pd_facts.rectangular_spec.
  assert (Hn : nrows df' = nrows df).
  { destruct H as [|[n s] [n' s'] ? ? [_ Hc] _]; [reflexivity|]. simpl in *.
    now apply fill_column_len. }
  rewrite Hn. clear Hn. revert Hr. generalize (nrows df) as k. intros k.
  induction H as [|c c' l l' [_ Hc] _ IH]; intros Hr; constructor;
    inversion Hr; subst; auto.
  apply fill_column_len in Hc. congruence.
Qed.

(** Selecting rows cannot introduce a missing value. *)
Lemma isnull_any_select keep s :
  isnull_any s = false -> isnull_any (select_series keep s) = false.
Proof.
  unfold isnull_any. rewrite pd_facts.cells_select. generalize (cells s) as l.
  induction keep as [|k keep IH]; intros [|c l] H; simpl in *; try reflexivity.
  apply orb_false_iff in H as [Hc Hl].
  destruct k; simpl; rewrite ?Hc; simpl; auto.
Qed.

Lemma fill_column_imputed s s' : fill_column s = inr s' -> imputed s s'.
Proof.
  unfold fill_column, imputed. destruct (isnull_any s); [|now intros [= <-]].
  destruct s as [v|v|v].
  - destruct (mode v) as [|m rest] eqn:Hm; intros [= <-].
    exists m. destruct (stat_facts.mode_head v m rest Hm). auto.
  - intros [= <-]. exists (median v). split; [apply stat_facts.median_spec|reflexivity].
  - now intros [= <-].
Qed.

Lemma fill_columns_imputed df df' :
  fill_columns df = (df', None) ->
  Forall2 (fun c c' => fst c' = fst c /\ imputed (snd c) (snd c')) df df'.
Proof.
  intros H. apply fill_columns_ok in H.
  induction H as [|c c' l l' [Hn Hc] _ IH]; constructor; [|exact IH].
  split; [exact Hn|]. now apply fill_column_imputed.
Qed.

Lemma drop_duplicates_notnull df :
  Forall (fun c => isnull_any (snd c) = false) df ->
  Forall (fun c => isnull_any (snd c) = false) (drop_duplicates df).
Proof.
  unfold drop_duplicates, select_rows. generalize (map negb (duplicated df)) as keep.
  intros keep H. induction H as [|c l Hc _ IH]; simpl; constructor; [|exact IH].
  simpl. now apply isnull_any_select.
Qed.

Lemma fill_column_kept s s' :
  fill_column s = inr s' -> Forall2 kept (cells s) (cells s').
Proof.
  assert (Hrefl : forall l, Forall2 kept l l).
  { intros l. induction l; constructor; auto. now intros _. }
  unfold fill_column. destruct (isnull_any s); [|intros [= <-]; apply Hrefl].
  destruct s as [v|v|v].
  - destruct (mode v) as [|m rest]; intros [= <-]. simpl. unfold fillna_object.
    induction v as [|[x|] v IH]; simpl; constructor; auto; now intros ?.
  - intros [= <-]. simpl. unfold fillna_float64. generalize (median v) as m. intros m.
    induction v as [|x v IH]; simpl; constructor; auto.
    unfold kept. simpl. now intros ->.
  - intros [= <-]. apply Hrefl.
Qed.

Lemma zip_with_cons_kept cs cs' rs rs' :
  Forall2 kept cs cs' -> Forall2 (Forall2 kept) rs rs' ->
  Forall2 (Forall2 kept) (zip_with cons cs rs) (zip_with cons cs' rs').
Proof.
  intros Hc. revert rs rs'.
  induction Hc as [|c c' cs cs' Hcc _ IHc]; intros rs rs' Hrs; simpl; [constructor|].
  destruct Hrs as [|r r' rs rs' Hr Hrs]; constructor; auto.
Qed.

Lemma rows_of_kept k df df' :
  Forall2 (fun c c' => fst c' = fst c /\ fill_column (snd c) = inr (snd c')) df df' ->
  Forall2 (Forall2 kept) (rows_of k df) (rows_of k df').
Proof.
  induction 1 as [|[n s] [n' s'] l l' [_ Hc] _ IH]; simpl.
  - induction k; simpl; constructor; auto.
  - simpl in Hc. apply zip_with_cons_kept; [now apply fill_column_kept|exact IH].
Qed.

Lemma fill_columns_rows df df' :
  fill_columns df = (df', None) ->
  Forall2 (Forall2 kept) (rows df) (rows df').
Proof.
  intros H. apply fill_columns_ok in H. unfold rows.
  assert (Hn : nrows df' = nrows df).
  { destruct H as [|[n s] [n' s'] ? ? [_ Hc] _]; [reflexivity|]. simpl in *.
    now apply fill_column_len. }
  rewrite Hn. now apply rows_of_kept.
Qed.

Lemma kept_row r r' :
  Forall2 kept r r' -> existsb isnull r = false -> r' = r.
Proof.
  induction 1 as [|c c' r r' Hc _ IH]; simpl; [reflexivity|].
  intros H. apply orb_false_iff in H as [Hn Hr]. now rewrite (Hc Hn), (IH Hr).
Qed.

End clean_facts.

(** ** The stages *)

Ltac run_monad :=
  cbv [bind ret raise get_world modify logging_info dict_get dict_set deref store
       os_path_exists os_makedirs write_file new_object new_dict].

Ltac world_step :=
  cbn [from_option id data objects files log fst snd negb].

Lemma table_missing_get w : table_missing w <-> default VNone (data w !! "df") = VNone.
Proof.
  unfold table_missing. destruct (data w !! "df") as [[| |]|]; simpl; split;
    intros H; try destruct H; try congruence; auto.
Qed.

Lemma table_missing_dec w : table_missing w \/ ~ table_missing w.
Proof.
  unfold table_missing. destruct (data w !! "df") as [[| |]|]; auto;
    right; intros [?|?]; congruence.
Qed.

Lemma clean_work_missing w :
  table_missing w -> CleanDataHandler_work w = (inl (ValueError no_data_to_clean), w).
Proof.
  intros H. apply table_missing_get in H. unfold CleanDataHandler_work.
  run_monad. now rewrite H.
Qed.

(** The cleaning step on a table: the stored object becomes the imputed,
    de-duplicated table (partially imputed when a column raises); the dict,
    the other objects and the files are as before. *)
Lemma clean_work_table w ref t :
  data w !! "df" = Some (VDataFrame ref) ->
  objects w !! ref = Some t ->
  CleanDataHandler_work w =
    let r := fill_columns (drop_duplicates t) in
    match snd r with
    | Some e =>
        (inl e, World (data w) (<[ref := fst r]> (objects w)) (files w)
                  ((log w ++ ["Удаление дублей..."]) ++ ["Обработка пропусков..."]))
    | None =>
        (inr tt, World (data w) (<[ref := fst r]> (objects w)) (files w)
                   (((log w ++ ["Удаление дублей..."]) ++ ["Обработка пропусков..."])
                      ++ ["Данные очищены."]))
    end.
Proof.
  intros Hd Ho. unfold CleanDataHandler_work. run_monad.
  rewrite Hd. world_step. rewrite Ho. world_step.
  rewrite lookup_insert_eq. world_step. rewrite insert_insert_eq.
  destruct (fill_columns (drop_duplicates t)) as [t' [e|]]; world_step; [reflexivity|].
  now rewrite (insert_id _ _ _ Hd).
Qed.

Lemma clean_work_other w repr :
  data w !! "df" = Some (VOther repr) ->
  CleanDataHandler_work w =
    (inl (AttributeError "drop_duplicates"),
     World (data w) (objects w) (files w) (log w ++ ["Удаление дублей..."])).
Proof.
  intros Hd. unfold CleanDataHandler_work. run_monad. now rewrite Hd.
Qed.

Lemma clean_work_dangling w ref :
  data w !! "df" = Some (VDataFrame ref) ->
  objects w !! ref = None ->
  CleanDataHandler_work w =
    (inl (SystemError "dangling reference"),
     World (data w) (objects w) (files w) (log w ++ ["Удаление дублей..."])).
Proof.
  intros Hd Ho. unfold CleanDataHandler_work. run_monad.
  rewrite Hd. world_step. now rewrite Ho.
Qed.

(** Every chain is reached by following [next_handler]. *)
Lemma Handler_chain_ind (P : Handler -> Prop) :
  (forall h, (forall n, next_handler h = Some n -> P n) -> P h) ->
  forall h, P h.
Proof.
  intros step. fix IH 1. intros h. apply step.
  destruct h as [p f [n|]|[n|]|o [n|]]; simpl; intros n' E;
    try discriminate; injection E as <-; apply IH.
Qed.

Section Properties.

Context {ext : External}.

Lemma handle_unfold h w :
  handle h w =
    match own_work h w with
    | (inl e, w') => (inl e, w')
    | (inr _, w') =>
        match next_handler h with
        | Some next => handle next w'
        | None => (inr (data w'), w')
        end
    end.
Proof.
  destruct h as [p f n|n|o n]; cbn [handle own_work next_handler];
    unfold bind at 1;
    match goal with |- context [?c w] =>
      match type of (c w) with (_ * world)%type => destruct (c w) as [[e|[]] w'] end
    end; try reflexivity; destruct n; reflexivity.
Qed.

Lemma report_work_missing o w :
  table_missing w ->
  SweetvizHandler_work o w = (inl (ValueError no_data_to_report), w).
Proof.
  intros H. apply table_missing_get in H. unfold SweetvizHandler_work.
  run_monad. now rewrite H.
Qed.

(** With a table in the dict, the report step leaves the dict and the objects
    alone and raises nothing but a library failure. *)
Lemma report_work_present o w :
  ~ table_missing w ->
  exists r w',
    SweetvizHandler_work o w = (r, w') /\
    data w' = data w /\ objects w' = objects w /\
    (forall e, r = inl e ->
       e = LibraryError "sweetviz" \/ e = SystemError "dangling reference").
Proof.
  intros H. rewrite table_missing_get in H. unfold SweetvizHandler_work. run_monad.
  destruct (default VNone (data w !! "df")) as [|ref|repr] eqn:Hd; [congruence|..];
    world_step.
  - destruct (objects w !! ref) as [t|]; world_step.
    + destruct (sv_analyze t) as [html|]; world_step; eexists _, _;
        (split; [reflexivity|]); repeat split; intros e [= <-]; auto.
    + eexists _, _; (split; [reflexivity|]); repeat split; intros e [= <-]; auto.
  - eexists _, _; (split; [reflexivity|]); repeat split; intros e [= <-]; auto.
Qed.

(** The loading step, by the state of the path. *)
Lemma open_work_absent p f w :
  files w !! os_path.join p f = None ->
  OpenCsvHandler_work p f w = (inl (FileNotFoundError (file_not_found f p)), w).
Proof.
  intros H. unfold OpenCsvHandler_work. run_monad. rewrite H.
  rewrite bool_decide_eq_false_2; [reflexivity|]. now intros [? ?].
Qed.

Lemma open_work_present p f w nd :
  files w !! os_path.join p f = Some nd ->
  OpenCsvHandler_work p f w =
    let log1 := app (log w) ["Чтение данных из файла " ++ f ++ "..."] in
    match nd with
    | File content =>
        match read_csv content with
        | Some t =>
            let ref := fresh (dom (objects w)) in
            (inr tt, World (<["df" := VDataFrame ref]> (data w))
                       (<[ref := t]> (objects w)) (files w)
                       (log1 ++ ["Данные успешно загружены."]))
        | None =>
            (inl (LibraryError "pd.read_csv"),
             World (data w) (objects w) (files w) log1)
        end
    | Directory =>
        (inl (LibraryError "pd.read_csv"), World (data w) (objects w) (files w) log1)
    end.
Proof.
  intros H. unfold OpenCsvHandler_work, pd_read_csv. run_monad. rewrite H.
  rewrite bool_decide_eq_true_2 by eauto. world_step. rewrite H.
  destruct nd as [|content]; [reflexivity|].
  destruct (read_csv content) as [t|]; reflexivity.
Qed.

(** Once the dict holds a table, every stage keeps one there and none raises
    [ValueError]. *)
Lemma own_work_present h w :
  (match h with OpenCsvHandler _ _ _ => True | _ => ~ table_missing w end) ->
  match own_work h w with
  | (inl e, _) => forall m, e <> ValueError m
  | (inr _, w') => ~ table_missing w'
  end.
Proof.
  destruct h as [p f n|n|o n]; cbn [own_work]; intros H.
  - destruct (files w !! os_path.join p f) as [nd|] eqn:Hf.
    + rewrite (open_work_present p f w nd Hf). cbv zeta.
      destruct nd as [|content]; [congruence|].
      destruct (read_csv content) as [t|]; [|congruence].
      unfold table_missing. cbn [data]. rewrite lookup_insert_eq.
      intros [?|?]; congruence.
    + rewrite (open_work_absent p f w Hf). congruence.
  - unfold table_missing in H.
    destruct (data w !! "df") as [[|ref|repr]|] eqn:Hd; try tauto.
    + destruct (objects w !! ref) as [t|] eqn:Ho.
      * rewrite (clean_work_table w ref t Hd Ho). cbv zeta.
        destruct (fill_columns (drop_duplicates t)) as [t' [e|]] eqn:Hfill; cbn [snd].
        -- apply clean_facts.fill_columns_error in Hfill as [-> _]. congruence.
        -- unfold table_missing. cbn [data]. rewrite Hd. intros [?|?]; congruence.
      * rewrite (clean_work_dangling w ref Hd Ho). congruence.
    + rewrite (clean_work_other w repr Hd). congruence.
  - destruct (report_work_present o w H) as [r [w' [-> [Hd [_ He]]]]].
    destruct r as [e|[]].
    + intros m ->. destruct (He _ eq_refl); congruence.
    + unfold table_missing in *. now rewrite Hd.
Qed.

Lemma handle_never_missing h :
  forall w, (match h with OpenCsvHandler _ _ _ => True | _ => ~ table_missing w end) ->
  forall m, fst (handle h w) <> inl (ValueError m).
Proof.
  induction h as [h IH] using Handler_chain_ind. intros w Hw m.
  rewrite handle_unfold. pose proof (own_work_present h w Hw) as Hown.
  destruct (own_work h w) as [[e|[]] w']; cbn [fst].
  - intros [= ->]. now apply (Hown m).
  - destruct (next_handler h) as [n|] eqn:Hn; [|discriminate].
    apply (IH n eq_refl). now destruct n.
Qed.

(** Only a loading stage raises [FileNotFoundError]. *)
Lemma own_work_no_file_error h w :
  no_loader h = true ->
  forall m, fst (own_work h w) <> inl (FileNotFoundError m).
Proof.
  destruct h as [p f n|n|o n]; cbn [own_work no_loader]; intros Hn m; [discriminate|..].
  - destruct (data w !! "df") as [[|ref|repr]|] eqn:Hd.
    + rewrite clean_work_missing by (now right). discriminate.
    + destruct (objects w !! ref) as [t|] eqn:Ho.
      * rewrite (clean_work_table w ref t Hd Ho). cbv zeta.
        destruct (fill_columns (drop_duplicates t)) as [t' [e|]] eqn:Hfill; cbn [fst snd];
          [|discriminate].
        apply clean_facts.fill_columns_error in Hfill as [-> _]. discriminate.
      * rewrite (clean_work_dangling w ref Hd Ho). discriminate.
    + rewrite (clean_work_other w repr Hd). discriminate.
    + rewrite clean_work_missing by (now left). discriminate.
  - destruct (table_missing_dec w) as [Hm|Hp].
    + rewrite (report_work_missing o w Hm). discriminate.
    + destruct (report_work_present o w Hp) as [r [w' [-> [_ [_ He]]]]].
      cbn [fst]. intros ->. destruct (He _ eq_refl); discriminate.
Qed.

Lemma handle_no_file_error h :
  no_loader h = true ->
  forall w m, fst (handle h w) <> inl (FileNotFoundError m).
Proof.
  induction h as [h IH] using Handler_chain_ind. intros Hn w m.
  rewrite handle_unfold. pose proof (own_work_no_file_error h w Hn m) as Hown.
  destruct (own_work h w) as [[e|[]] w']; cbn [fst] in *; [congruence|].
  destruct (next_handler h) as [n|] eqn:Hnext; [|discriminate].
  apply (IH n eq_refl).
  destruct h as [p f n'|n'|o n']; cbn [no_loader next_handler] in *;
    try discriminate; now subst n'.
Qed.

(** C3: every stage's [handle] does the stage's own work and then returns
    what its successor's [handle] returns on the resulting context, or, when
    there is no successor, the context as the own work left it; an exception
    of the own work is the result. *)
Theorem handle_forwards (h : Handler) (w : world) :
  match own_work h w, next_handler h with
  | (inr _, w'), Some next => handle h w = handle next w'
  | (inr _, w'), None => handle h w = (inr (data w'), w')
  | (inl e, w'), _ => handle h w = (inl e, w')
  end.
Proof.
  rewrite handle_unfold.
  destruct (own_work h w) as [[e|[]] w']; destruct (next_handler h); reflexivity.
Qed.

(** C10: when the table key is absent or [None], the cleaning stage and the
    report stage raise their [ValueError] and the world (dict, objects,
    files, log) is exactly as it was. *)
Theorem missing_input_leaves_world (next : option Handler) (o : string) (w : world) :
  table_missing w ->
  handle (CleanDataHandler next) w = (inl (ValueError no_data_to_clean), w) /\
  handle (SweetvizHandler o next) w = (inl (ValueError no_data_to_report), w).
Proof.
  intros H. rewrite !handle_unfold. cbn [own_work].
  now rewrite (clean_work_missing w H), (report_work_missing o w H).
Qed.

(** C4: the cleaning stage and the report stage raise the missing-input
    [ValueError] exactly when the table key is absent or [None]; with a table
    present, no [ValueError] comes out of [handle] at all. *)
Theorem missing_input_iff (next : option Handler) (o : string) (w : world) :
  (table_missing w <->
   fst (handle (CleanDataHandler next) w) = inl (ValueError no_data_to_clean)) /\
  (table_missing w <->
   fst (handle (SweetvizHandler o next) w) = inl (ValueError no_data_to_report)) /\
  (~ table_missing w ->
   forall m, fst (handle (CleanDataHandler next) w) <> inl (ValueError m) /\
             fst (handle (SweetvizHandler o next) w) <> inl (ValueError m)).
Proof.
  assert (Hno : ~ table_missing w ->
    forall m, fst (handle (CleanDataHandler next) w) <> inl (ValueError m) /\
              fst (handle (SweetvizHandler o next) w) <> inl (ValueError m)).
  { intros H m. split; now apply handle_never_missing. }
  split; [split|split; [split|exact Hno]].
  - intros H. rewrite handle_unfold. cbn [own_work].
    now rewrite (clean_work_missing w H).
  - intros H. destruct (table_missing_dec w) as [|Hp]; [assumption|].
    now destruct (Hno Hp no_data_to_clean).
  - intros H. rewrite handle_unfold. cbn [own_work].
    now rewrite (report_work_missing o w H).
  - intros H. destruct (table_missing_dec w) as [|Hp]; [assumption|].
    now destruct (Hno Hp no_data_to_report).
Qed.

(** C9: the own work of the cleaning stage changes nothing in the dict
    outside the key ["df"]; nor does it touch any object other than the table
    under that key, or any file.  (The table itself is mutated in place, so
    another key bound to the same object sees the cleaned table.) *)
Theorem clean_frame_rule (next : option Handler) (w w' : world) (r : exn + unit) :
  own_work (CleanDataHandler next) w = (r, w') ->
  (forall k, k <> "df" -> data w' !! k = data w !! k) /\
  (forall ref, data w !! "df" <> Some (VDataFrame ref) ->
     objects w' !! ref = objects w !! ref) /\
  files w' = files w.
Proof.
  cbn [own_work]. intros Hrun.
  destruct (data w !! "df") as [[|ref0|repr]|] eqn:Hd.
  - rewrite clean_work_missing in Hrun by (now right). now injection Hrun as <- <-.
  - destruct (objects w !! ref0) as [t|] eqn:Ho.
    + rewrite (clean_work_table w ref0 t Hd Ho) in Hrun. cbv zeta in Hrun.
      destruct (snd (fill_columns (drop_duplicates t))); injection Hrun as <- <-;
        cbn [data objects files]; repeat split; intros ref Hne;
        apply lookup_insert_ne; congruence.
    + rewrite (clean_work_dangling w ref0 Hd Ho) in Hrun. now injection Hrun as <- <-.
  - rewrite (clean_work_other w repr Hd) in Hrun. now injection Hrun as <- <-.
  - rewrite clean_work_missing in Hrun by (now left). now injection Hrun as <- <-.
Qed.

End Properties.

Section Cleaning.

Context {ext : External}.

(** A successful run of the cleaning step, spelled out. *)
Lemma clean_work_success next w w1 ref t :
  data w !! "df" = Some (VDataFrame ref) ->
  objects w !! ref = Some t ->
  own_work (CleanDataHandler next) w = (inr tt, w1) ->
  exists t',
    fill_columns (drop_duplicates t) = (t', None) /\
    data w1 = data w /\ objects w1 = <[ref := t']> (objects w) /\
    files w1 = files w /\ table w1 = Some t'.
Proof.
  intros Hd Ho. cbn [own_work].
  rewrite (clean_work_table w ref t Hd Ho). cbv zeta.
  destruct (fill_columns (drop_duplicates t)) as [t' [e|]]; cbn [fst snd]; [discriminate|].
  intros [= <-]. exists t'. cbn [data objects files]. repeat split.
  unfold table. cbn [data objects]. rewrite Hd. apply lookup_insert_eq.
Qed.

(** Report stages hand the dict and the objects on as they found them. *)
Lemma handle_reports_only h :
  reports_only h = true ->
  forall w d w', ~ table_missing w -> handle h w = (inr d, w') ->
  data w' = data w /\ objects w' = objects w /\ d = data w.
Proof.
  induction h as [h IH] using Handler_chain_ind. intros Hr w d w' Hp.
  destruct h as [p f n|n|o n]; cbn [reports_only] in Hr; try discriminate.
  rewrite handle_unfold. cbn [own_work next_handler].
  destruct (report_work_present o w Hp) as [r [w1 [-> [Hd [Ho _]]]]].
  destruct r as [e|[]]; [discriminate|].
  destruct n as [n|].
  - intros Hrun.
    destruct (IH n eq_refl Hr w1 d w') as [Hd' [Ho' ->]]; try assumption.
    + unfold table_missing in *. now rewrite Hd.
    + repeat split; congruence.
  - intros [= <- <-]. auto.
Qed.

(** A successful [handle] of a cleaning stage followed by report stages only. *)
Lemma clean_handle_success next w w' ref t d :
  then_reports next = true ->
  data w !! "df" = Some (VDataFrame ref) ->
  objects w !! ref = Some t ->
  handle (CleanDataHandler next) w = (inr d, w') ->
  exists t',
    fill_columns (drop_duplicates t) = (t', None) /\
    data w' = data w /\ objects w' = <[ref := t']> (objects w) /\
    d = data w /\ table w' = Some t'.
Proof.
  intros Hnext Hd Ho. rewrite handle_unfold.
  destruct (own_work (CleanDataHandler next) w) as [[e|[]] w1] eqn:Hown; [discriminate|].
  destruct (clean_work_success next w w1 ref t Hd Ho Hown)
    as [t' [Hfill [Hd1 [Ho1 [_ Ht]]]]].
  cbn [next_handler]. destruct next as [n|].
  - intros Hrun. cbn [then_reports] in Hnext.
    destruct (handle_reports_only n Hnext w1 d w') as [Hd' [Ho' ->]]; try assumption.
    + unfold table_missing. rewrite Hd1, Hd. intros [?|?]; congruence.
    + exists t'. repeat split; try congruence.
      unfold table in *. now rewrite Hd', Ho'.
  - intros [= <- <-]. exists t'. auto.
Qed.

(** C1 (amended): after the [handle] of a cleaning stage (followed by
    nothing, or by report stages) succeeds, the table in the context is the
    imputation of the de-duplicated input.  The de-duplicated table keeps, in
    order, the rows with no equal earlier row and has no duplicate rows.
    Every column of the result has no missing value, unless it is a float
    column whose median is NaN.  Two rows of the result are equal only if one
    of them had a missing cell before imputation; so when the input has no
    missing value the result has no duplicate rows. *)
Theorem clean_guarantee (next : option Handler) (w w' : world) (ref : positive)
    (t : DataFrame) (d : gmap string value) :
  then_reports next = true ->
  data w !! "df" = Some (VDataFrame ref) ->
  objects w !! ref = Some t ->
  rectangular t = true ->
  handle (CleanDataHandler next) w = (inr d, w') ->
  exists t',
    table w' = Some t' /\
    fill_columns (drop_duplicates t) = (t', None) /\
    rows (drop_duplicates t) = select (map negb (duplicated t)) (rows t) /\
    existsb id (duplicated (drop_duplicates t)) = false /\
    Forall (fun c =>
              isnull_any (snd c) = false \/
              exists v, snd c = Float64Series v /\ is_nan (median v) = true) t' /\
    (forall i j ri rj ri' rj',
       i < j ->
       rows (drop_duplicates t) !! i = Some ri -> rows (drop_duplicates t) !! j = Some rj ->
       rows t' !! i = Some ri' -> rows t' !! j = Some rj' ->
       row_eqb rj' ri' = true ->
       existsb isnull ri = true \/ existsb isnull rj = true) /\
    (Forall (fun c => isnull_any (snd c) = false) t ->
     t' = drop_duplicates t /\ existsb id (duplicated t') = false).
Proof.
  intros Hnext Hd Ho Hr Hrun.
  destruct (clean_handle_success next w w' ref t d Hnext Hd Ho Hrun)
    as [t' [Hfill [_ [_ [_ Ht]]]]].
  pose proof (pd_facts.drop_duplicates_no_duplicates t Hr) as Hnodup.
  exists t'. split; [exact Ht|]. split; [exact Hfill|].
  split; [now apply pd_facts.rows_drop_duplicates|].
  split; [exact Hnodup|].
  split; [exact (clean_facts.fill_columns_settled _ _ Hfill)|].
  split.
  { intros i j ri rj ri' rj' Hij Hi Hj Hi' Hj' Heq.
    pose proof (clean_facts.fill_columns_rows _ _ Hfill) as Hrows.
    destruct (existsb isnull ri) eqn:Hni; [now left|].
    destruct (existsb isnull rj) eqn:Hnj; [now right|]. exfalso.
    assert (ri' = ri) as ->.
    { eapply clean_facts.kept_row; [|exact Hni].
      eapply Forall2_lookup_lr; eassumption. }
    assert (rj' = rj) as ->.
    { eapply clean_facts.kept_row; [|exact Hnj].
      eapply Forall2_lookup_lr; eassumption. }
    destruct (pd_facts.duplicated_from_none [] _ Hnodup) as [_ Hpairs].
    rewrite (Hpairs i j ri rj Hij Hi Hj) in Heq. discriminate. }
  intros Hnull. apply clean_facts.drop_duplicates_notnull in Hnull.
  assert (Hfix : fill_columns (drop_duplicates t) = (drop_duplicates t, None)).
  { apply clean_facts.fill_columns_fixed.
    eapply Forall_impl; [exact Hnull|]. intros c Hc. now left. }
  rewrite Hfix in Hfill. injection Hfill as <-.
  split; [reflexivity|]. now apply pd_facts.drop_duplicates_no_duplicates.
Qed.

(** C2 (amended): after the [handle] of a cleaning stage (followed by
    nothing, or by report stages) succeeds, every column of the de-duplicated
    table has been imputed: a text column with missing entries has each of
    them replaced by its most frequent non-missing value, the least in string
    order among ties; a float column with missing entries has each of them
    replaced by its median; every other entry and every other column is
    unchanged. *)
Theorem clean_fills (next : option Handler) (w w' : world) (ref : positive)
    (t : DataFrame) (d : gmap string value) :
  then_reports next = true ->
  data w !! "df" = Some (VDataFrame ref) ->
  objects w !! ref = Some t ->
  handle (CleanDataHandler next) w = (inr d, w') ->
  exists t',
    table w' = Some t' /\
    Forall2 (fun c c' => fst c' = fst c /\ imputed (snd c) (snd c'))
      (drop_duplicates t) t'.
Proof.
  intros Hnext Hd Ho Hrun.
  destruct (clean_handle_success next w w' ref t d Hnext Hd Ho Hrun)
    as [t' [Hfill [_ [_ [_ Ht]]]]].
  exists t'. split; [exact Ht|]. now apply clean_facts.fill_columns_imputed.
Qed.

(** C7 (amended): when the table that the cleaning (de-duplication, then
    imputation) leaves has no duplicate rows, cleaning it again succeeds and
    leaves the same table, and the same dict, objects and files. *)
Theorem clean_again (next : option Handler) (w w1 : world) (ref : positive)
    (t t1 : DataFrame) :
  data w !! "df" = Some (VDataFrame ref) ->
  objects w !! ref = Some t ->
  rectangular t = true ->
  own_work (CleanDataHandler next) w = (inr tt, w1) ->
  table w1 = Some t1 ->
  existsb id (duplicated t1) = false ->
  exists w2,
    own_work (CleanDataHandler next) w1 = (inr tt, w2) /\
    table w2 = Some t1 /\
    data w2 = data w1 /\ objects w2 = objects w1 /\ files w2 = files w1.
Proof.
  intros Hd Ho Hr Hrun Ht1 Hnodup.
  destruct (clean_work_success next w w1 ref t Hd Ho Hrun)
    as [t' [Hfill [Hd1 [Ho1 [_ Ht]]]]].
  assert (t' = t1) as -> by congruence.
  assert (Hd1' : data w1 !! "df" = Some (VDataFrame ref)) by now rewrite Hd1.
  assert (Ho1' : objects w1 !! ref = Some t1) by (rewrite Ho1; apply lookup_insert_eq).
  assert (Hr1 : rectangular t1 = true).
  { eapply clean_facts.fill_columns_rectangular; [exact Hfill|].
    now apply pd_facts.rectangular_drop_duplicates. }
  cbn [own_work].
  rewrite (clean_work_table w1 ref t1 Hd1' Ho1'). cbv zeta.
  rewrite (pd_facts.drop_duplicates_id t1 Hr1 Hnodup).
  rewrite (clean_facts.fill_columns_fixed t1 (clean_facts.fill_columns_settled _ _ Hfill)).
  cbn [fst snd]. rewrite (insert_id _ _ _ Ho1').
  eexists. split; [reflexivity|].
  unfold table in *. cbn [data objects files]. auto.
Qed.

End Cleaning.

Section Pipeline.

Context {ext : External}.

(** C5: the loading stage raises [FileNotFoundError], naming the file and the
    directory, exactly when the joined path does not exist (the world is then
    untouched); when its own work succeeds, the file parsed to a table that
    now sits in the dict under ["df"]. *)
Theorem open_csv_spec (p f : string) (next : option Handler) (w : world) :
  ((exists m, fst (own_work (OpenCsvHandler p f next) w) = inl (FileNotFoundError m))
   <-> files w !! os_path.join p f = None) /\
  (files w !! os_path.join p f = None ->
   handle (OpenCsvHandler p f next) w =
     (inl (FileNotFoundError ("Файл " ++ f ++ " не найден по пути " ++ p ++ ".")), w)) /\
  (match next with Some n => no_loader n = true | None => True end ->
   ((exists m, fst (handle (OpenCsvHandler p f next) w) = inl (FileNotFoundError m))
    <-> files w !! os_path.join p f = None)) /\
  (forall w', own_work (OpenCsvHandler p f next) w = (inr tt, w') ->
   exists ref content t,
     files w !! os_path.join p f = Some (File content) /\
     read_csv content = Some t /\
     data w' !! "df" = Some (VDataFrame ref) /\
     table w' = Some t /\ ~ table_missing w').
Proof.
  assert (Hown : (exists m, fst (OpenCsvHandler_work p f w) = inl (FileNotFoundError m))
                 -> files w !! os_path.join p f = None).
  { intros [m Hm]. destruct (files w !! os_path.join p f) as [nd|] eqn:Hf; [|reflexivity].
    rewrite (open_work_present p f w nd Hf) in Hm. cbv zeta in Hm.
    destruct nd as [|content]; [discriminate|].
    destruct (read_csv content); discriminate. }
  assert (Habsent : files w !! os_path.join p f = None ->
                    handle (OpenCsvHandler p f next) w =
                      (inl (FileNotFoundError (file_not_found f p)), w)).
  { intros Hf. rewrite handle_unfold. cbn [own_work].
    now rewrite (open_work_absent p f w Hf). }
  cbn [own_work]. split; [split|split; [|split]].
  - exact Hown.
  - intros Hf. rewrite (open_work_absent p f w Hf). eauto.
  - exact Habsent.
  - intros Hnext. split; [|intros Hf; rewrite (Habsent Hf); eauto].
    intros [m Hm]. rewrite handle_unfold in Hm. cbn [own_work next_handler] in Hm.
    destruct (OpenCsvHandler_work p f w) as [[e|[]] w'] eqn:Hrun.
    + apply Hown. exists m. cbn [fst] in *. congruence.
    + destruct next as [n|]; [|discriminate].
      now destruct (handle_no_file_error n Hnext w' m).
  - intros w' Hrun. destruct (files w !! os_path.join p f) as [nd|] eqn:Hf.
    + rewrite (open_work_present p f w nd Hf) in Hrun. cbv zeta in Hrun.
      destruct nd as [|content]; [discriminate|].
      destruct (read_csv content) as [t|] eqn:Hparse; [|discriminate].
      injection Hrun as <-. exists (fresh (dom (objects w))), content, t.
      unfold table, table_missing. cbn [data objects].
      rewrite !lookup_insert_eq. repeat split; auto. intros [?|?]; congruence.
    + rewrite (open_work_absent p f w Hf) in Hrun. discriminate.
Qed.

(** C6: [execute] on a flow whose chain was never built raises
    [RuntimeError] and leaves the world (files and log included) untouched;
    [build_chain] builds the chain load, clean, report; on a built flow
    [execute] runs the head's [handle] on a new empty dict. *)
Theorem execute_spec (cfg : Config) (w : world) :
  execute (EDAFlow_init cfg) w = (inl (RuntimeError chain_not_built), w) /\
  (exists w0,
     build_chain (EDAFlow_init cfg) w =
       (inr {| config := cfg;
               chain := Some (OpenCsvHandler (datasets_dir cfg) (file_name cfg)
                                (Some (CleanDataHandler
                                   (Some (SweetvizHandler (output_dir cfg) None))))) |},
        w0)) /\
  (forall head,
     execute {| config := cfg; chain := Some head |} w =
       match handle head
               (World ∅ (objects w) (files w)
                  (log w ++ ["Начало выполнения цепочки анализа данных."])) with
       | (inl e, w') => (inl e, w')
       | (inr _, w') => (inr tt, w')
       end).
Proof.
  split; [reflexivity|]. split.
  - unfold build_chain, SweetvizHandler_init. run_monad. cbn [config chain EDAFlow_init].
    destruct (bool_decide _); cbn [negb]; eexists; reflexivity.
  - intros head. unfold execute. cbn [chain]. run_monad.
    destruct (handle head _) as [[e|d] w']; reflexivity.
Qed.

End Pipeline.

(** ** Concrete runs *)

(** C8: a float column [1, 2, 3, NaN] is cleaned to [1, 2, 3, 2], and
    [1, 2, 3, 4, NaN] to [1, 2, 3, 4, 2.5]. *)
Theorem median_examples :
  table (snd (@handle sample.lib (CleanDataHandler None)
                (sample.world_with sample.odd_count)))
    = Some [("x", Float64Series [1; 2; 3; 2]%float)] /\
  table (snd (@handle sample.lib (CleanDataHandler None)
                (sample.world_with sample.even_count)))
    = Some [("x", Float64Series [1; 2; 3; 4; 2.5]%float)] /\
  median [1; 2; 3; nan]%float = 2%float /\
  median [1; 2; 3; 4; nan]%float = 2.5%float.
Proof. repeat split; vm_compute; reflexivity. Qed.

(** Against C1 as stated: the rows (1, NaN) and (1, 2) are distinct, so both
    survive de-duplication; imputation then fills the NaN with the median 2,
    and the cleaned table has a duplicate row.  And a float column with no
    value at all has median NaN, so its missing entry stays missing. *)
Lemma clean_leaves_duplicates :
  fst (@handle sample.lib (CleanDataHandler None) (sample.world_with sample.twins))
    = inr {[ "df" := VDataFrame 1%positive ]} /\
  table (snd (@handle sample.lib (CleanDataHandler None) (sample.world_with sample.twins)))
    = Some [("a", Float64Series [1; 1]%float); ("b", Float64Series [2; 2]%float)] /\
  duplicated [("a", Float64Series [1; 1]%float); ("b", Float64Series [2; 2]%float)]
    = [false; true] /\
  fst (@handle sample.lib (CleanDataHandler None) (sample.world_with sample.blank))
    = inr {[ "df" := VDataFrame 1%positive ]} /\
  table (snd (@handle sample.lib (CleanDataHandler None) (sample.world_with sample.blank)))
    = Some [("id", Int64Series [7; 8]%Z); ("x", Float64Series [nan; nan]%float)] /\
  isnull_sum (Float64Series [nan; nan]%float) = 2.
Proof. repeat split; vm_compute; reflexivity. Qed.

(** Against C2 as stated: in the column ["b", "a", None] the values "b" and
    "a" tie with one occurrence each and "b" comes first, yet the missing
    entry is filled with "a". *)
Lemma mode_tie_takes_least :
  value_count "b" (dropna [Some "b"; Some "a"; None]) = 1 /\
  value_count "a" (dropna [Some "b"; Some "a"; None]) = 1 /\
  head (dropna [Some "b"; Some "a"; None]) = Some "b" /\
  table (snd (@handle sample.lib (CleanDataHandler None) (sample.world_with sample.tie)))
    = Some [("c", ObjectSeries [Some "b"; Some "a"; Some "a"])].
Proof. repeat split; vm_compute; reflexivity. Qed.

(** The text column ["a", "a", "b", None], as a one-column table: the second
    "a" row is a duplicate and goes first; of the remaining "a" and "b" the
    missing entry gets "a". *)
Lemma text_example :
  table (snd (@handle sample.lib (CleanDataHandler None)
                (sample.world_with sample.text_aab)))
    = Some [("c", ObjectSeries [Some "a"; Some "b"; Some "a"])] /\
  mode [Some "a"; Some "a"; Some "b"; None] = ["a"].
Proof. split; vm_compute; reflexivity. Qed.

(** Against C7 as stated: cleaning the rows (1, NaN), (1, 2) gives (1, 2),
    (1, 2); cleaning that output again drops the second row. *)
Lemma clean_twice_differs :
  table (snd (@own_work sample.lib (CleanDataHandler None)
                (sample.world_with sample.twins)))
    = Some [("a", Float64Series [1; 1]%float); ("b", Float64Series [2; 2]%float)] /\
  table (snd (@own_work sample.lib (CleanDataHandler None)
                (snd (@own_work sample.lib (CleanDataHandler None)
                        (sample.world_with sample.twins)))))
    = Some [("a", Float64Series [1]%float); ("b", Float64Series [2]%float)].
Proof. repeat split; vm_compute; reflexivity. Qed.

(** ** The theorems at sample inputs *)

(** C10 at the empty world: the key is absent. *)
Lemma missing_input_leaves_world_witness :
  @handle sample.lib (CleanDataHandler None) sample.empty_world
    = (inl (ValueError no_data_to_clean), sample.empty_world) /\
  @handle sample.lib (SweetvizHandler "/tmp/out" None) sample.empty_world
    = (inl (ValueError no_data_to_report), sample.empty_world).
Proof.
  apply missing_input_leaves_world. left. reflexivity.
Defined.

(** C4 at the empty world (key absent) and at a world holding a table. *)
Lemma missing_input_iff_witness :
  fst (@handle sample.lib (CleanDataHandler None) sample.empty_world)
    = inl (ValueError no_data_to_clean) /\
  (forall m,
     fst (@handle sample.lib (CleanDataHandler None) (sample.world_with sample.indexed))
       <> inl (ValueError m) /\
     fst (@handle sample.lib (SweetvizHandler "/tmp/out" None)
            (sample.world_with sample.indexed))
       <> inl (ValueError m)).
Proof.
  split.
  - apply (proj1 (proj1 (@missing_input_iff sample.lib None "/tmp/out" sample.empty_world))).
    left. reflexivity.
  - apply (proj2 (proj2 (@missing_input_iff sample.lib None "/tmp/out"
                           (sample.world_with sample.indexed)))).
    intros [H|H]; vm_compute in H; discriminate H.
Defined.

(** C9 at a dict with two more keys, one bound to another frame. *)
Lemma clean_frame_rule_witness :
  (forall k, k <> "df" ->
     data (snd (@own_work sample.lib (CleanDataHandler None) sample.busy_world)) !! k
       = data sample.busy_world !! k) /\
  (forall ref, data sample.busy_world !! "df" <> Some (VDataFrame ref) ->
     objects (snd (@own_work sample.lib (CleanDataHandler None) sample.busy_world)) !! ref
       = objects sample.busy_world !! ref) /\
  files (snd (@own_work sample.lib (CleanDataHandler None) sample.busy_world))
    = files sample.busy_world.
Proof.
  apply (@clean_frame_rule sample.lib None sample.busy_world _
           (fst (@own_work sample.lib (CleanDataHandler None) sample.busy_world))).
  apply surjective_pairing.
Defined.

(** C1 (amended) at the two rows (1, NaN), (1, 2), the cleaning stage
    followed by a report stage. *)
Lemma clean_guarantee_witness :
  exists t',
    table (snd (@handle sample.lib
                  (CleanDataHandler (Some (SweetvizHandler "/tmp/out" None)))
                  (sample.world_with sample.twins))) = Some t' /\
    fill_columns (drop_duplicates sample.twins) = (t', None) /\
    rows (drop_duplicates sample.twins)
      = select (map negb (duplicated sample.twins)) (rows sample.twins) /\
    existsb id (duplicated (drop_duplicates sample.twins)) = false /\
    Forall (fun c =>
              isnull_any (snd c) = false \/
              exists v, snd c = Float64Series v /\ is_nan (median v) = true) t' /\
    (forall i j ri rj ri' rj',
       i < j ->
       rows (drop_duplicates sample.twins) !! i = Some ri ->
       rows (drop_duplicates sample.twins) !! j = Some rj ->
       rows t' !! i = Some ri' -> rows t' !! j = Some rj' ->
       row_eqb rj' ri' = true ->
       existsb isnull ri = true \/ existsb isnull rj = true) /\
    (Forall (fun c => isnull_any (snd c) = false) sample.twins ->
     t' = drop_duplicates sample.twins /\ existsb id (duplicated t') = false).
Proof.
  apply (@clean_guarantee sample.lib (Some (SweetvizHandler "/tmp/out" None))
           (sample.world_with sample.twins) _ 1%positive
           sample.twins {[ "df" := VDataFrame 1%positive ]}).
  - reflexivity.
  - reflexivity.
  - reflexivity.
  - reflexivity.
  - vm_compute. reflexivity.
Defined.

(** C2 (amended) at the text column ["a", "a", "b", None]. *)
Lemma clean_fills_witness :
  exists t',
    table (snd (@handle sample.lib (CleanDataHandler None)
                  (sample.world_with sample.text_aab))) = Some t' /\
    Forall2 (fun c c' => fst c' = fst c /\ imputed (snd c) (snd c'))
      (drop_duplicates sample.text_aab) t'.
Proof.
  apply (@clean_fills sample.lib None (sample.world_with sample.text_aab) _ 1%positive
           sample.text_aab {[ "df" := VDataFrame 1%positive ]}).
  - reflexivity.
  - reflexivity.
  - reflexivity.
  - vm_compute. reflexivity.
Defined.

(** C7 (amended) at a table whose cleaned form has no duplicate rows. *)
Lemma clean_again_witness :
  exists w2,
    @own_work sample.lib (CleanDataHandler None)
      (snd (@own_work sample.lib (CleanDataHandler None) (sample.world_with sample.indexed)))
      = (inr tt, w2) /\
    table w2
      = Some [("id", Int64Series [1; 2; 3]%Z); ("x", Float64Series [1; 2; 3]%float)] /\
    data w2
      = data (snd (@own_work sample.lib (CleanDataHandler None)
                     (sample.world_with sample.indexed))) /\
    objects w2
      = objects (snd (@own_work sample.lib (CleanDataHandler None)
                        (sample.world_with sample.indexed))) /\
    files w2
      = files (snd (@own_work sample.lib (CleanDataHandler None)
                      (sample.world_with sample.indexed))).
Proof.
  apply (@clean_again sample.lib None (sample.world_with sample.indexed) _ 1%positive
           sample.indexed).
  - reflexivity.
  - reflexivity.
  - reflexivity.
  - vm_compute. reflexivity.
  - vm_compute. reflexivity.
  - vm_compute. reflexivity.
Defined.

(** C5 at a disk without the file, at a disk with it, and for the built
    chain. *)
Lemma open_csv_spec_witness :
  @handle (sample.libraries sample.indexed)
    (OpenCsvHandler "/tmp/in" "d.csv" None) sample.empty_world
    = (inl (FileNotFoundError
              ("Файл " ++ "d.csv" ++ " не найден по пути " ++ "/tmp/in" ++ ".")),
       sample.empty_world) /\
  (exists ref content t,
     files sample.disk_world !! os_path.join "/tmp/in" "d.csv" = Some (File content) /\
     @read_csv (sample.libraries sample.indexed) content = Some t /\
     data (snd (@own_work (sample.libraries sample.indexed)
                  (OpenCsvHandler "/tmp/in" "d.csv" None) sample.disk_world)) !! "df"
       = Some (VDataFrame ref) /\
     table (snd (@own_work (sample.libraries sample.indexed)
                   (OpenCsvHandler "/tmp/in" "d.csv" None) sample.disk_world))
       = Some t /\
     ~ table_missing (snd (@own_work (sample.libraries sample.indexed)
                             (OpenCsvHandler "/tmp/in" "d.csv" None) sample.disk_world))) /\
  ((exists m,
      fst (@handle (sample.libraries sample.indexed)
             (OpenCsvHandler "/tmp/in" "d.csv"
                (Some (CleanDataHandler (Some (SweetvizHandler "/tmp/out" None)))))
             sample.disk_world)
        = inl (FileNotFoundError m))
   <-> files sample.disk_world !! os_path.join "/tmp/in" "d.csv" = None).
Proof.
  split; [|split].
  - apply (proj1 (proj2 (@open_csv_spec (sample.libraries sample.indexed)
                           "/tmp/in" "d.csv" None sample.empty_world))).
    reflexivity.
  - apply (proj2 (proj2 (proj2 (@open_csv_spec (sample.libraries sample.indexed)
                                  "/tmp/in" "d.csv" None sample.disk_world)))).
    vm_compute. reflexivity.
  - apply (proj1 (proj2 (proj2 (@open_csv_spec (sample.libraries sample.indexed)
                                  "/tmp/in" "d.csv" _ sample.disk_world)))).
    reflexivity.
Defined.

(** * Further properties of the pipeline *)

(** ** What every stage keeps *)

Lemma grows_refl w : grows w w.
Proof. unfold grows. repeat split; auto. exists []. now rewrite app_nil_r. Qed.

Lemma grows_trans w1 w2 w3 : grows w1 w2 -> grows w2 w3 -> grows w1 w3.
Proof.
  intros (Hd & Hk & Ho & Hf & [m1 Hl]) (Hd' & Hk' & Ho' & Hf' & [m2 Hl']).
  unfold grows. repeat split; auto.
  - intros k Hne. now rewrite Hk', Hk.
  - exists (app m1 m2). now rewrite Hl', Hl, app_assoc.
Qed.

Lemma insert_is_Some {K : Type} `{Countable K} {A : Type} (m : gmap K A) i j x :
  is_Some (m !! j) -> is_Some (<[i := x]> m !! j).
Proof. intros Hj. apply lookup_insert_is_Some'. now right. Qed.

Ltac grows_auto :=
  unfold grows; cbn [data objects files log]; repeat split;
    try (intros; first [assumption | now apply insert_is_Some
                        | now apply lookup_insert_ne ]);
    try (rewrite <- ?app_assoc; eexists; reflexivity).

Section Stages.

Context {ext : External}.

(** The report step on a table. *)
Lemma report_work_table o w ref t :
  data w !! "df" = Some (VDataFrame ref) ->
  objects w !! ref = Some t ->
  SweetvizHandler_work o w =
    match sv_analyze t with
    | Some html =>
        (inr tt, World (data w) (objects w) (<[report_path o := File html]> (files w))
                   ((log w ++ ["Генерация отчета Sweetviz..."])
                      ++ ["Отчет Sweetviz сохранен: " ++ report_path o]))
    | None =>
        (inl (LibraryError "sweetviz"),
         World (data w) (objects w) (files w) (log w ++ ["Генерация отчета Sweetviz..."]))
    end.
Proof.
  intros Hd Ho. unfold SweetvizHandler_work, report_path. run_monad.
  rewrite Hd. world_step. rewrite Ho.
  destruct (sv_analyze t) as [html|]; reflexivity.
Qed.

Lemma report_work_no_table o w :
  ~ table_missing w -> table w = None ->
  exists e,
    SweetvizHandler_work o w =
      (inl e, World (data w) (objects w) (files w)
                (log w ++ ["Генерация отчета Sweetviz..."])).
Proof.
  intros Hp Ht. unfold table_missing in Hp. unfold table in Ht.
  unfold SweetvizHandler_work. run_monad.
  destruct (data w !! "df") as [[|ref|repr]|] eqn:Hd; try tauto; world_step.
  - rewrite Ht. eexists. reflexivity.
  - eexists. reflexivity.
Qed.

Lemma table_Some w t :
  table w = Some t ->
  exists ref, data w !! "df" = Some (VDataFrame ref) /\ objects w !! ref = Some t.
Proof.
  unfold table. destruct (data w !! "df") as [[|ref|repr]|]; try discriminate. eauto.
Qed.

Lemma own_work_grows h w : grows w (snd (own_work h w)).
Proof.
  destruct h as [p f n|n|o n]; cbn [own_work].
  - destruct (files w !! os_path.join p f) as [nd|] eqn:Hf.
    + rewrite (open_work_present p f w nd Hf). cbv zeta.
      destruct nd as [|content]; [grows_auto|].
      destruct (read_csv content) as [t|]; grows_auto.
    + rewrite (open_work_absent p f w Hf). apply grows_refl.
  - destruct (data w !! "df") as [[|ref|repr]|] eqn:Hd.
    + rewrite clean_work_missing by (now right). apply grows_refl.
    + destruct (objects w !! ref) as [t|] eqn:Ho.
      * rewrite (clean_work_table w ref t Hd Ho). cbv zeta.
        destruct (snd (fill_columns (drop_duplicates t))); grows_auto.
      * rewrite (clean_work_dangling w ref Hd Ho). grows_auto.
    + rewrite (clean_work_other w repr Hd). grows_auto.
    + rewrite clean_work_missing by (now left). apply grows_refl.
  - destruct (table_missing_dec w) as [Hm|Hp].
    + rewrite (report_work_missing o w Hm). apply grows_refl.
    + destruct (table w) as [t|] eqn:Ht.
      * destruct (table_Some w t Ht) as [ref [Hd Ho]].
        rewrite (report_work_table o w ref t Hd Ho).
        destruct (sv_analyze t); grows_auto.
      * destruct (report_work_no_table o w Hp Ht) as [e ->]. grows_auto.
Qed.

Lemma handle_grows h : forall w, grows w (snd (handle h w)).
Proof.
  induction h as [h IH] using Handler_chain_ind. intros w.
  rewrite handle_unfold. pose proof (own_work_grows h w) as Hown.
  destruct (own_work h w) as [[e|[]] w1]; cbn [snd] in *; [exact Hown|].
  destruct (next_handler h) as [n|] eqn:Hn; [|exact Hown].
  eapply grows_trans; [exact Hown|]. now apply IH.
Qed.

(** X1: whatever the chain and however it ends, [handle] removes no key from
    the dict, no object and no file, and only appends to the log. *)
Theorem handle_removes_nothing (h : Handler) (w : world) :
  (forall k, is_Some (data w !! k) -> is_Some (data (snd (handle h w)) !! k)) /\
  (forall r, is_Some (objects w !! r) -> is_Some (objects (snd (handle h w)) !! r)) /\
  (forall p, is_Some (files w !! p) -> is_Some (files (snd (handle h w)) !! p)) /\
  (exists more, log (snd (handle h w)) = app (log w) more).
Proof.
  destruct (handle_grows h w) as (Hd & _ & Ho & Hf & Hl). auto.
Qed.

(** X2: no stage of any chain writes a dict key other than ["df"]. *)
Theorem handle_writes_only_df (h : Handler) (w : world) (k : string) :
  k <> "df" -> data (snd (handle h w)) !! k = data w !! k.
Proof.
  intros Hk. destruct (handle_grows h w) as (_ & Hkeep & _). now apply Hkeep.
Qed.

(** X3: a successful load puts the parsed table in a new object: its
    reference was unused, every existing object is as it was (a table loaded
    earlier is not overwritten), and only the key ["df"] is rebound. *)
Theorem open_csv_allocates (p f : string) (next : option Handler) (w w' : world) :
  own_work (OpenCsvHandler p f next) w = (inr tt, w') ->
  exists ref content t,
    files w !! os_path.join p f = Some (File content) /\
    read_csv content = Some t /\
    objects w !! ref = None /\
    data w' = <["df" := VDataFrame ref]> (data w) /\
    objects w' = <[ref := t]> (objects w) /\
    (forall r, is_Some (objects w !! r) -> objects w' !! r = objects w !! r) /\
    files w' = files w.
Proof.
  cbn [own_work]. intros Hrun.
  destruct (files w !! os_path.join p f) as [nd|] eqn:Hf.
  - rewrite (open_work_present p f w nd Hf) in Hrun. cbv zeta in Hrun.
    destruct nd as [|content]; [discriminate|].
    destruct (read_csv content) as [t|] eqn:Hparse; [|discriminate].
    injection Hrun as <-.
    assert (Hfresh : objects w !! fresh (dom (objects w)) = None).
    { apply not_elem_of_dom. apply is_fresh. }
    exists (fresh (dom (objects w))), content, t. cbn [data objects files].
    repeat split; auto.
    intros r [x Hr]. apply lookup_insert_ne. intros <-. congruence.
  - rewrite (open_work_absent p f w Hf) in Hrun. discriminate.
Qed.

(** X4: the report stage never changes the dict or any object.  When its own
    work succeeds, the table was there, sweetviz rendered it, and the one
    change to the file system is the report at
    [output_dir/sweetviz_report.html]; when it raises, no file is written. *)
Theorem report_effects (o : string) (next : option Handler) (w w' : world)
    (r : exn + unit) :
  own_work (SweetvizHandler o next) w = (r, w') ->
  data w' = data w /\ objects w' = objects w /\
  match r with
  | inr _ =>
      exists t html,
        table w = Some t /\ sv_analyze t = Some html /\
        files w' = <[os_path.join o "sweetviz_report.html" := File html]> (files w)
  | inl _ => files w' = files w
  end.
Proof.
  cbn [own_work]. intros Hrun.
  destruct (table_missing_dec w) as [Hm|Hp].
  - rewrite (report_work_missing o w Hm) in Hrun. now injection Hrun as <- <-.
  - destruct (table w) as [t|] eqn:Ht.
    + destruct (table_Some w t Ht) as [ref [Hd Ho]].
      rewrite (report_work_table o w ref t Hd Ho) in Hrun.
      destruct (sv_analyze t) as [html|] eqn:Hsv; injection Hrun as <- <-;
        cbn [data objects files]; repeat split.
      exists t, html. auto.
    + destruct (report_work_no_table o w Hp Ht) as [e He].
      rewrite He in Hrun. now injection Hrun as <- <-.
Qed.

Lemma run_stages_unfold h w :
  run_stages (stages h) w =
    match own_work h w with
    | (inl e, w') => (inl e, w')
    | (inr _, w') =>
        match next_handler h with
        | Some next => run_stages (stages next) w'
        | None => (inr tt, w')
        end
    end.
Proof.
  destruct h as [p f n|n|o n]; cbn [stages run_stages next_handler]; unfold bind;
    match goal with |- context [own_work ?h w] =>
      destruct (own_work h w) as [[e|[]] w']
    end; try reflexivity; destruct n; reflexivity.
Qed.

(** X5: [handle] runs the own work of the chain's stages in order, from the
    head on; the first exception ends the run and is the result, with the
    world as it was when raised; otherwise the result is the dict as the last
    stage left it. *)
Theorem handle_runs_stages (h : Handler) (w : world) :
  handle h w =
    match run_stages (stages h) w with
    | (inl e, w') => (inl e, w')
    | (inr _, w') => (inr (data w'), w')
    end.
Proof.
  revert w. induction h as [h IH] using Handler_chain_ind. intros w.
  rewrite handle_unfold, run_stages_unfold.
  destruct (own_work h w) as [[e|[]] w1]; [reflexivity|].
  destruct (next_handler h) as [n|] eqn:Hn; [|reflexivity].
  now apply IH.
Qed.

End Stages.

(** ** More on the cleaning step *)

Module blank_facts.














(** The loop raises exactly when a column is a blank text column, and then
    it raises [KeyError]. *)
Lemma fill_column_raises s :
  fill_column s = (if blank_text s then inl (KeyError 0) else fill_column s) /\
  (blank_text s = false -> exists s', fill_column s = inr s').
Proof.
  unfold fill_column. destruct s as [v|v|v]; cbn [blank_text].
  - destruct v as [|x v].
    + split; [reflexivity|]. intros _. eexists. reflexivity.
    + destruct (forallb (fun o => bool_decide (o = None)) (x :: v)) eqn:Hall.
      * assert (Hd : dropna (x :: v) = []).
        { clear -Hall. induction (x :: v) as [|o l IH]; [reflexivity|]. simpl in *.
          apply andb_true_iff in Hall as [Ho Hl]. apply bool_decide_eq_true in Ho.
          subst o. unfold dropna in *. simpl. now apply IH. }
        apply stat_facts.mode_nil in Hd. rewrite Hd.
        assert (Hn : isnull_any (ObjectSeries (x :: v)) = true).
        { simpl in Hall. apply andb_true_iff in Hall as [Ho _].
          apply bool_decide_eq_true in Ho. now subst x. }
        rewrite Hn. split; [reflexivity|discriminate].
      * split; [reflexivity|]. intros _.
        destruct (isnull_any (ObjectSeries (x :: v))); [|eexists; reflexivity].
        destruct (mode (x :: v)) as [|m rest] eqn:Hm; [|eexists; reflexivity].
        exfalso. apply stat_facts.mode_nil in Hm.
        assert (forallb (fun o => bool_decide (o = None)) (x :: v) = true); [|congruence].
        clear -Hm. induction (x :: v) as [|o l IH]; [reflexivity|].
        unfold dropna in Hm. simpl in *. destruct o as [y|]; [discriminate|].
        simpl. now apply IH.
  - split; [reflexivity|]. intros _. destruct (isnull_any _); eexists; reflexivity.
  - split; [reflexivity|]. intros _. destruct (isnull_any _); eexists; reflexivity.
Qed.

Lemma fill_columns_raises df :
  snd (fill_columns df)
  = if existsb (fun c => blank_text (snd c)) df then Some (KeyError 0) else None.
Proof.
  induction df as [|[name s] df IH]; simpl; [reflexivity|].
  destruct (fill_column_raises s) as [Heq Hok].
  destruct (blank_text s) eqn:Hb; simpl.
  - now rewrite Heq.
  - destruct (Hok eq_refl) as [s' ->]. simpl. exact IH.
Qed.


End blank_facts.

Module shape_facts.













End shape_facts.

Section MoreCleaning.

Context {ext : External}.





End MoreCleaning.

(** ** The whole pipeline *)

Section Flow.

Context {ext : External}.

Lemma report_init_run o w :
  SweetvizHandler_init o w =
    if bool_decide (is_Some (files w !! o)) then (inr tt, w)
    else (inr tt, World (data w) (objects w) (<[o := Directory]> (files w)) (log w)).
Proof.
  unfold SweetvizHandler_init. run_monad.
  destruct (bool_decide (is_Some (files w !! o))); reflexivity.
Qed.

Lemma report_init_exists o w :
  is_Some (files (snd (SweetvizHandler_init o w)) !! o).
Proof.
  rewrite report_init_run.
  destruct (bool_decide (is_Some (files w !! o))) eqn:Hex; cbn [snd files].
  - now apply bool_decide_eq_true in Hex.
  - rewrite lookup_insert_eq. eauto.
Qed.

Lemma report_init_again o w :
  SweetvizHandler_init o (snd (SweetvizHandler_init o w))
    = (inr tt, snd (SweetvizHandler_init o w)).
Proof.
  rewrite (report_init_run o (snd _)).
  rewrite bool_decide_eq_true_2; [reflexivity|apply report_init_exists].
Qed.

(** X10: [SweetvizHandler.__init__] (with [os.makedirs] taken to succeed)
    never raises and makes sure there is an entry at the output path; every
    entry that was there (at the output path too, be it a file) is as
    before, as are the dict, the objects and the log; constructing a second
    handler for the same directory changes nothing. *)
Theorem report_init_effects (o : string) (w : world) :
  fst (SweetvizHandler_init o w) = inr tt /\
  is_Some (files (snd (SweetvizHandler_init o w)) !! o) /\
  (forall p, is_Some (files w !! p) ->
     files (snd (SweetvizHandler_init o w)) !! p = files w !! p) /\
  data (snd (SweetvizHandler_init o w)) = data w /\
  objects (snd (SweetvizHandler_init o w)) = objects w /\
  log (snd (SweetvizHandler_init o w)) = log w /\
  SweetvizHandler_init o (snd (SweetvizHandler_init o w))
    = (inr tt, snd (SweetvizHandler_init o w)).
Proof.
  split; [|split; [apply report_init_exists|]].
  { rewrite report_init_run. now destruct (bool_decide _). }
  split; [|split; [|split; [|split; [|apply report_init_again]]]];
    rewrite (report_init_run o w);
    destruct (bool_decide (is_Some (files w !! o))) eqn:Hex; cbn [snd];
    try reflexivity.
  apply bool_decide_eq_false in Hex. cbn [files].
  intros p Hp. apply lookup_insert_ne. intros <-. contradiction.
Qed.



(** The built chain, run from a world: every way it can end. *)
Lemma handle_built cfg w :
  handle (built_chain cfg) w =
    match files w !! os_path.join (datasets_dir cfg) (file_name cfg) with
    | None =>
        (inl (FileNotFoundError (file_not_found (file_name cfg) (datasets_dir cfg))), w)
    | Some Directory =>
        (inl (LibraryError "pd.read_csv"),
         World (data w) (objects w) (files w)
           (log w ++ ["Чтение данных из файла " ++ file_name cfg ++ "..."]))
    | Some (File content) =>
        match read_csv content with
        | None =>
            (inl (LibraryError "pd.read_csv"),
             World (data w) (objects w) (files w)
               (log w ++ ["Чтение данных из файла " ++ file_name cfg ++ "..."]))
        | Some t =>
            let ref := fresh (dom (objects w)) in
            let d := <["df" := VDataFrame ref]> (data w) in
            let r := fill_columns (drop_duplicates t) in
            match snd r with
            | Some e =>
                (inl e,
                 World d (<[ref := fst r]> (objects w)) (files w)
                   (log w ++ ["Чтение данных из файла " ++ file_name cfg ++ "...";
                              "Данные успешно загружены."; "Удаление дублей...";
                              "Обработка пропусков..."]))
            | None =>
                match sv_analyze (fst r) with
                | None =>
                    (inl (LibraryError "sweetviz"),
                     World d (<[ref := fst r]> (objects w)) (files w)
                       (log w ++ ["Чтение данных из файла " ++ file_name cfg ++ "...";
                                  "Данные успешно загружены."; "Удаление дублей...";
                                  "Обработка пропусков..."; "Данные очищены.";
                                  "Генерация отчета Sweetviz..."]))
                | Some html =>
                    (inr d,
                     World d (<[ref := fst r]> (objects w))
                       (<[report_path (output_dir cfg) := File html]> (files w))
                       (log w ++ ["Чтение данных из файла " ++ file_name cfg ++ "...";
                                  "Данные успешно загружены."; "Удаление дублей...";
                                  "Обработка пропусков..."; "Данные очищены.";
                                  "Генерация отчета Sweetviz...";
                                  "Отчет Sweetviz сохранен: "
                                    ++ report_path (output_dir cfg)]))
                end
            end
        end
    end.
Proof.
  unfold built_chain. rewrite handle_unfold. cbn [own_work next_handler].
  destruct (files w !! os_path.join (datasets_dir cfg) (file_name cfg)) as [nd|] eqn:Hf.
  2: { now rewrite (open_work_absent _ _ w Hf). }
  rewrite (open_work_present _ _ w nd Hf). cbv zeta.
  destruct nd as [|content]; [reflexivity|].
  destruct (read_csv content) as [t|]; [|reflexivity].
  set (ref := fresh (dom (objects w))).
  rewrite handle_unfold. cbn [own_work next_handler].
  erewrite clean_work_table;
    [|cbn [data]; apply lookup_insert_eq|cbn [objects]; apply lookup_insert_eq].
  cbv zeta. cbn [data objects files log]. rewrite insert_insert_eq.
  destruct (fill_columns (drop_duplicates t)) as [t' [e|]]; cbn [fst snd].
  { rewrite <- !app_assoc. reflexivity. }
  rewrite handle_unfold. cbn [own_work next_handler].
  erewrite report_work_table;
    [|cbn [data]; apply lookup_insert_eq|cbn [objects]; apply lookup_insert_eq].
  cbn [data objects files log].
  destruct (sv_analyze t') as [html|]; rewrite <- !app_assoc; reflexivity.
Qed.

Lemma execute_built cfg h w :
  execute {| config := cfg; chain := Some h |} w =
    match handle h (World ∅ (objects w) (files w)
                      (log w ++ ["Начало выполнения цепочки анализа данных."])) with
    | (inl e, w') => (inl e, w')
    | (inr _, w') => (inr tt, w')
    end.
Proof.
  unfold execute. cbn [chain]. run_monad.
  destruct (handle h _) as [[e|d] w']; reflexivity.
Qed.


End Flow.

Section Outcomes.

Context {ext : External}.

(** How a run of the built flow ends, by the input. *)
Lemma pipeline_outcome_run (cfg : Config) (w : world) :
  fst (execute {| config := cfg; chain := Some (built_chain cfg) |} w) =
    match files w !! os_path.join (datasets_dir cfg) (file_name cfg) with
    | None =>
        inl (FileNotFoundError (file_not_found (file_name cfg) (datasets_dir cfg)))
    | Some Directory => inl (LibraryError "pd.read_csv")
    | Some (File content) =>
        match read_csv content with
        | None => inl (LibraryError "pd.read_csv")
        | Some t =>
            if existsb (fun c => blank_text (snd c)) (drop_duplicates t)
            then inl (KeyError 0)
            else match sv_analyze (fst (fill_columns (drop_duplicates t))) with
                 | None => inl (LibraryError "sweetviz")
                 | Some _ => inr tt
                 end
        end
    end.
Proof.
  rewrite execute_built, handle_built. cbn [data objects files log].
  destruct (files w !! os_path.join (datasets_dir cfg) (file_name cfg)) as [[|content]|];
    try reflexivity.
  destruct (read_csv content) as [t|]; [|reflexivity]. cbv zeta.
  rewrite blank_facts.fill_columns_raises.
  destruct (existsb _ (drop_duplicates t)); [reflexivity|].
  destruct (sv_analyze _); reflexivity.
Qed.

(** X12: end to end.  When the input file is there and parses to [t], no
    text column of the de-duplicated [t] is blank, and sweetviz renders the
    cleaned table, [execute] on the built flow succeeds: the new dict holds
    only ["df"], bound to a new object that holds the cleaned table; the one
    change to the file system is the report; the log has the eight progress
    messages in order. *)
Theorem pipeline_success (cfg : Config) (w : world) (content html : string)
    (t t' : DataFrame) :
  files w !! os_path.join (datasets_dir cfg) (file_name cfg) = Some (File content) ->
  read_csv content = Some t ->
  fill_columns (drop_duplicates t) = (t', None) ->
  sv_analyze t' = Some html ->
  execute {| config := cfg; chain := Some (built_chain cfg) |} w =
    (inr tt,
     World {[ "df" := VDataFrame (fresh (dom (objects w))) ]}
           (<[fresh (dom (objects w)) := t']> (objects w))
           (<[os_path.join (output_dir cfg) "sweetviz_report.html" := File html]> (files w))
           (log w ++ ["Начало выполнения цепочки анализа данных.";
                      "Чтение данных из файла " ++ file_name cfg ++ "...";
                      "Данные успешно загружены."; "Удаление дублей...";
                      "Обработка пропусков..."; "Данные очищены.";
                      "Генерация отчета Sweetviz...";
                      "Отчет Sweetviz сохранен: "
                        ++ os_path.join (output_dir cfg) "sweetviz_report.html"])).
Proof.
  intros Hf Hparse Hfill Hsv. rewrite execute_built, handle_built.
  cbn [data objects files log]. rewrite Hf, Hparse. cbv zeta. rewrite Hfill.
  cbn [fst snd]. rewrite Hsv. rewrite <- !app_assoc. reflexivity.
Qed.

(** X13: every way [execute] on the built flow can end, read off the input:
    [FileNotFoundError] when the path is absent; a [pd.read_csv] failure when
    it is a directory or does not parse; [KeyError] when a text column of the
    de-duplicated table is blank; a sweetviz failure when the cleaned table
    does not render; success otherwise.  The handlers' missing-input
    [ValueError] and the not-built [RuntimeError] cannot occur. *)
Theorem pipeline_outcome (cfg : Config) (w : world) :
  fst (execute {| config := cfg; chain := Some (built_chain cfg) |} w) =
    match files w !! os_path.join (datasets_dir cfg) (file_name cfg) with
    | None =>
        inl (FileNotFoundError (file_not_found (file_name cfg) (datasets_dir cfg)))
    | Some Directory => inl (LibraryError "pd.read_csv")
    | Some (File content) =>
        match read_csv content with
        | None => inl (LibraryError "pd.read_csv")
        | Some t =>
            if existsb (fun c => blank_text (snd c)) (drop_duplicates t)
            then inl (KeyError 0)
            else match sv_analyze (fst (fill_columns (drop_duplicates t))) with
                 | None => inl (LibraryError "sweetviz")
                 | Some _ => inr tt
                 end
        end
    end.
Proof. apply pipeline_outcome_run. Qed.

(** X14: when [execute] on the built flow raises anything but a sweetviz
    failure (so: missing file, unreadable file, blank text column), the file
    system is exactly as it was: no report is written. *)
Theorem pipeline_failure_writes_nothing (cfg : Config) (w w' : world) (e : exn) :
  execute {| config := cfg; chain := Some (built_chain cfg) |} w = (inl e, w') ->
  e <> LibraryError "sweetviz" ->
  files w' = files w.
Proof.
  rewrite execute_built, handle_built. cbn [data objects files log]. intros Hrun _.
  revert Hrun.
  destruct (files w !! os_path.join (datasets_dir cfg) (file_name cfg)) as [[|content]|].
  - now intros [= <- <-].
  - destruct (read_csv content) as [t|]; [|now intros [= <- <-]]. cbv zeta.
    destruct (snd (fill_columns (drop_duplicates t))); [now intros [= <- <-]|].
    destruct (sv_analyze _); [discriminate|now intros [= <- <-]].
  - now intros [= <- <-].
Qed.




End Outcomes.

(** ** Linking handler objects *)

Section Linking.

Lemma chain_from_leaf hs r o fuel :
  hs !! r = Some o -> next_ref o = None ->
  chain_from (S fuel) hs r = Some (handler_of (fields o) None).
Proof. intros Hr Hn. cbn [chain_from]. now rewrite Hr, Hn. Qed.

Lemma chain_from_link hs r o r' c fuel :
  hs !! r = Some o -> next_ref o = Some r' -> chain_from fuel hs r' = Some c ->
  chain_from (S fuel) hs r = Some (handler_of (fields o) (Some c)).
Proof. intros Hr Hn Hc. cbn [chain_from]. now rewrite Hr, Hn, Hc. Qed.

Lemma set_next_handler_of f old next :
  set_next (handler_of f old) next = handler_of f (Some next).
Proof. now destruct f. Qed.

(** X16: [set_next] returns its argument, so [a.set_next(b).set_next(c)]
    links [a] to [b] and [b] to [c]: for three distinct handler objects, the
    last with no successor, the chain from [a] afterwards is the one the
    value-level [set_next] builds from the inside out, whatever successors
    [a] and [b] had before. *)
Theorem set_next_chaining (hs : gmap positive HandlerObject) (a b c : positive)
    (oa ob oc : HandlerObject) :
  a <> b -> a <> c -> b <> c ->
  hs !! a = Some oa -> hs !! b = Some ob -> hs !! c = Some oc ->
  next_ref oc = None ->
  let r1 := set_next_ref a b hs in
  let r2 := set_next_ref (snd r1) c (fst r1) in
  snd r1 = b /\ snd r2 = c /\
  chain_from 3 (fst r2) a =
    Some (set_next (handler_of (fields oa) None)
            (set_next (handler_of (fields ob) None) (handler_of (fields oc) None))).
Proof.
  intros Hab Hac Hbc Ha Hb Hc Hleaf. cbn [set_next_ref fst snd].
  split; [reflexivity|split; [reflexivity|]].
  rewrite !set_next_handler_of.
  set (hs2 := alter _ b (alter _ a hs)).
  assert (Ha2 : hs2 !! a = Some {| fields := fields oa; next_ref := Some b |}).
  { subst hs2. rewrite lookup_alter_ne by congruence.
    now rewrite lookup_alter_eq, Ha. }
  assert (Hb2 : hs2 !! b = Some {| fields := fields ob; next_ref := Some c |}).
  { subst hs2. rewrite lookup_alter_eq, lookup_alter_ne by congruence.
    now rewrite Hb. }
  assert (Hc2 : hs2 !! c = Some oc).
  { subst hs2. now rewrite !lookup_alter_ne by congruence. }
  rewrite (chain_from_link hs2 a _ b (handler_of (fields ob) (Some (handler_of (fields oc) None)))
             2 Ha2 eq_refl); [reflexivity|].
  rewrite (chain_from_link hs2 b _ c (handler_of (fields oc) None) 1 Hb2 eq_refl);
    [reflexivity|].
  now apply chain_from_leaf.
Qed.

(** X17: [set_next] does not look for cycles.  After [a.set_next(a)] the
    links from [a] never end: no finite chain describes the handler. *)
Theorem set_next_self_cycle (hs : gmap positive HandlerObject) (a : positive)
    (fuel : nat) :
  chain_from fuel (fst (set_next_ref a a hs)) a = None.
Proof.
  cbn [set_next_ref fst]. induction fuel as [|fuel IH]; [reflexivity|].
  cbn [chain_from]. rewrite lookup_alter_eq.
  destruct (hs !! a) as [o|]; cbn [fmap option_fmap option_map next_ref]; [|reflexivity].
  now rewrite IH.
Qed.

End Linking.

Section Paths.

Context {ext : External}.

(** X18: an absolute [file_name] overrides the dataset directory: when the
    name starts with [/] and there is an entry at it, [OpenCsvHandler] does
    the same whatever directory it was given. *)
Theorem absolute_name_ignores_dir (p p' f : string) (next next' : option Handler)
    (w : world) :
  String.prefix "/" f = true ->
  is_Some (files w !! f) ->
  own_work (OpenCsvHandler p f next) w = own_work (OpenCsvHandler p' f next') w.
Proof.
  intros Habs [nd Hnd].
  assert (Hj : forall d, os_path.join d f = f).
  { intros d. unfold os_path.join. now rewrite Habs. }
  assert (Hf : forall d, files w !! os_path.join d f = Some nd).
  { intros d. now rewrite Hj. }
  cbn [own_work].
  rewrite (open_work_present p f w nd (Hf p)).
  now rewrite (open_work_present p' f w nd (Hf p')).
Qed.

End Paths.

(** ** The further theorems at sample inputs *)

(** X2 at a dict with two more keys: the cleaning stage leaves ["raw"]. *)
Lemma handle_writes_only_df_witness :
  data (snd (@handle sample.lib (CleanDataHandler None) sample.busy_world)) !! "raw"
    = data sample.busy_world !! "raw".
Proof.
  apply (@handle_writes_only_df sample.lib (CleanDataHandler None) sample.busy_world "raw").
  discriminate.
Defined.

(** X3 at a disk holding the input file. *)
Lemma open_csv_allocates_witness :
  exists ref content t,
    files sample.disk_world !! os_path.join "/tmp/in" "d.csv" = Some (File content) /\
    @read_csv (sample.libraries sample.indexed) content = Some t /\
    objects sample.disk_world !! ref = None /\
    data (snd (@own_work (sample.libraries sample.indexed)
                 (OpenCsvHandler "/tmp/in" "d.csv" None) sample.disk_world))
      = <["df" := VDataFrame ref]> (data sample.disk_world) /\
    objects (snd (@own_work (sample.libraries sample.indexed)
                    (OpenCsvHandler "/tmp/in" "d.csv" None) sample.disk_world))
      = <[ref := t]> (objects sample.disk_world) /\
    (forall r, is_Some (objects sample.disk_world !! r) ->
       objects (snd (@own_work (sample.libraries sample.indexed)
                       (OpenCsvHandler "/tmp/in" "d.csv" None) sample.disk_world)) !! r
         = objects sample.disk_world !! r) /\
    files (snd (@own_work (sample.libraries sample.indexed)
                  (OpenCsvHandler "/tmp/in" "d.csv" None) sample.disk_world))
      = files sample.disk_world.
Proof.
  apply (@open_csv_allocates (sample.libraries sample.indexed) "/tmp/in" "d.csv" None
           sample.disk_world).
  vm_compute. reflexivity.
Defined.

(** X4 at a world holding a table: the report is written. *)
Lemma report_effects_witness :
  data (snd (@own_work sample.lib (SweetvizHandler "/tmp/out" None)
               (sample.world_with sample.indexed)))
    = data (sample.world_with sample.indexed) /\
  objects (snd (@own_work sample.lib (SweetvizHandler "/tmp/out" None)
                  (sample.world_with sample.indexed)))
    = objects (sample.world_with sample.indexed) /\
  exists t html,
    table (sample.world_with sample.indexed) = Some t /\
    @sv_analyze sample.lib t = Some html /\
    files (snd (@own_work sample.lib (SweetvizHandler "/tmp/out" None)
                  (sample.world_with sample.indexed)))
      = <[os_path.join "/tmp/out" "sweetviz_report.html" := File html]>
          (files (sample.world_with sample.indexed)).
Proof.
  apply (@report_effects sample.lib "/tmp/out" None (sample.world_with sample.indexed)
           _ (inr tt)).
  vm_compute. reflexivity.
Defined.





(** X12 at a disk holding the input file, with libraries that parse it to
    [sample.indexed] and render every table. *)
Lemma pipeline_success_witness :
  @execute (sample.libraries sample.indexed)
    {| config := sample.config; chain := Some (built_chain sample.config) |}
    sample.disk_world =
    (inr tt,
     World {[ "df" := VDataFrame (fresh (dom (objects sample.disk_world))) ]}
           (<[fresh (dom (objects sample.disk_world)) := more_samples.indexed_cleaned]>
              (objects sample.disk_world))
           (<[os_path.join "/tmp/out" "sweetviz_report.html" := File "<html/>"]>
              (files sample.disk_world))
           (log sample.disk_world
              ++ ["Начало выполнения цепочки анализа данных.";
                  "Чтение данных из файла " ++ "d.csv" ++ "...";
                  "Данные успешно загружены."; "Удаление дублей...";
                  "Обработка пропусков..."; "Данные очищены.";
                  "Генерация отчета Sweetviz...";
                  "Отчет Sweetviz сохранен: "
                    ++ os_path.join "/tmp/out" "sweetviz_report.html"])).
Proof.
  apply (@pipeline_success (sample.libraries sample.indexed) sample.config
           sample.disk_world "a,b" "<html/>" sample.indexed more_samples.indexed_cleaned).
  - reflexivity.
  - reflexivity.
  - vm_compute. reflexivity.
  - reflexivity.
Defined.

(** X14 at an empty disk: the load raises and no file appears. *)
Lemma pipeline_failure_writes_nothing_witness :
  files (snd (@execute sample.lib
                {| config := sample.config; chain := Some (built_chain sample.config) |}
                sample.empty_world))
    = files sample.empty_world.
Proof.
  apply (@pipeline_failure_writes_nothing sample.lib sample.config sample.empty_world _
           (FileNotFoundError (file_not_found "d.csv" "/tmp/in"))).
  - vm_compute. reflexivity.
  - discriminate.
Defined.

(** X16 at the three handlers of [build_chain]: the chained calls give the
    chain that [built_chain] names. *)
Lemma set_next_chaining_witness :
  snd (set_next_ref 1 2 more_samples.handlers) = 2%positive /\
  snd (set_next_ref (snd (set_next_ref 1 2 more_samples.handlers)) 3
         (fst (set_next_ref 1 2 more_samples.handlers))) = 3%positive /\
  chain_from 3
    (fst (set_next_ref (snd (set_next_ref 1 2 more_samples.handlers)) 3
            (fst (set_next_ref 1 2 more_samples.handlers)))) 1
    = Some (built_chain sample.config).
Proof.
  apply (set_next_chaining more_samples.handlers 1 2 3
           (new_handler (OpenCsvFields "/tmp/in" "d.csv"))
           (new_handler CleanDataFields)
           (new_handler (SweetvizFields "/tmp/out"))).
  - discriminate.
  - discriminate.
  - discriminate.
  - reflexivity.
  - reflexivity.
  - reflexivity.
  - reflexivity.
Defined.

(** X18 at an absolute file name: two different directories, one result. *)
Lemma absolute_name_ignores_dir_witness :
  @own_work (sample.libraries sample.indexed)
    (OpenCsvHandler "/data" "/tmp/in/d.csv" None) sample.disk_world
  = @own_work (sample.libraries sample.indexed)
      (OpenCsvHandler "/elsewhere" "/tmp/in/d.csv" None) sample.disk_world.
Proof.
  apply (@absolute_name_ignores_dir (sample.libraries sample.indexed)
           "/data" "/elsewhere" "/tmp/in/d.csv" None None sample.disk_world).
  - reflexivity.
  - exists (File "a,b"). reflexivity.
Defined.

